(** * DevReplicator: stack detection, image-tag derivation and clone step

    A shallow embedding of [detectors.py], [executor.py], the command-line
    run of [replicator.py] and the console helpers of [utils.py], together
    with the properties the specification states about them and further
    properties read off the code.

    Conventions.
    - A Python [str] is a sequence of Unicode code points; it is modelled
      as [list N] ([pystr]).  [py "..."] turns an ASCII literal into such a
      sequence.
    - A Python exception is a value of [exn]; a computation that may raise
      has type [result A].
    - [print]-only helpers ([log_info], [log_warn], ...) are left out of
      the detector, which is otherwise pure; they are kept as trace events
      in the model of [clone_repository], where the specification speaks
      about the diagnostic.
    - The file system and the child process are observed, not implemented:
      a [Repo] records what [Path.exists], [read_text], [json.loads] and
      [rglob] answer for one cloned directory, a [Host] what [shutil],
      [tempfile] and [subprocess] answer.  [rglob] and [Path.exists] on
      the names the program supplies itself are taken to answer without
      raising; [Path.exists] on a name read from package.json may raise. *)

From Stdlib Require Import NArith ZArith Ascii String.
From Stdlib Require DecimalString.
From stdpp Require Import base list gmap.

Set Warnings "-register-all".
Local Open Scope N_scope.

(** ** Exceptions *)

Inductive exn : Type :=
| OSError
| UnicodeDecodeError
| JSONDecodeError
| RecursionError
| KeyError
| AttributeError
| TypeError.

Inductive result (A : Type) : Type :=
| Ok (a : A)
| Raise (e : exn).
Arguments Ok {A} a.
Arguments Raise {A} e.

#[global] Instance result_bind : MBind result := λ A B k m,
  match m with
  | Ok a => k a
  | Raise e => Raise e
  end.

#[global] Instance result_fmap : FMap result := λ A B f m,
  match m with
  | Ok a => Ok (f a)
  | Raise e => Raise e
  end.

(** ** Python strings *)

Definition pystr : Type := list N.

Definition py (s : string) : pystr :=
  List.map N_of_ascii (list_ascii_of_string s).

(** [c in chars], the membership test of [str.strip] and friends. *)
Definition char_in (c : N) (chars : pystr) : bool :=
  existsb (N.eqb c) chars.

(** [s.lstrip(chars)] *)
Fixpoint lstrip (chars s : pystr) : pystr :=
  match s with
  | [] => []
  | c :: s' => if char_in c chars then lstrip chars s' else s
  end.

(** [s.rstrip(chars)] *)
Definition rstrip (chars s : pystr) : pystr :=
  reverse (lstrip chars (reverse s)).

(** [s.strip(chars)] *)
Definition strip (chars s : pystr) : pystr :=
  rstrip chars (lstrip chars s).

(** [s.startswith(p)] *)
Fixpoint startswith (p s : pystr) : bool :=
  match p, s with
  | [], _ => true
  | _ :: _, [] => false
  | a :: p', b :: s' => N.eqb a b && startswith p' s'
  end.

(** [s.split(sep)] for a non-empty separator: a left-to-right scan for
    non-overlapping occurrences.  [skip] counts the characters of an
    occurrence that are still to be consumed, [cur] is the piece being
    collected, in reverse. *)
Fixpoint split_go (sep : pystr) (skip : nat) (cur s : pystr) : list pystr :=
  match s with
  | [] => [reverse cur]
  | c :: s' =>
      match skip with
      | S k => split_go sep k cur s'
      | O =>
          if startswith sep s
          then reverse cur :: split_go sep (Nat.pred (length sep)) [] s'
          else split_go sep O (c :: cur) s'
      end
  end.

Definition split (sep s : pystr) : list pystr := split_go sep O [] s.

(** [xs[-1]] on a list of strings; [split] never returns the empty list,
    so the default is not reached from the code below. *)
Definition last_piece (xs : list pystr) : pystr := List.last xs [].

(** The character class [[a-zA-Z0-9._-]] of [_slugify]. *)
Definition is_lower (c : N) : bool := (97 <=? c) && (c <=? 122).
Definition is_upper (c : N) : bool := (65 <=? c) && (c <=? 90).
Definition is_digit (c : N) : bool := (48 <=? c) && (c <=? 57).

Definition tag_char (c : N) : bool :=
  is_lower c || is_upper c || is_digit c
  || (c =? 46) || (c =? 95) || (c =? 45).

(** [re.sub(r"[^a-zA-Z0-9._-]", "-", name)] *)
Definition sub_non_tag (name : pystr) : pystr :=
  List.map (fun c => if tag_char c then c else 45) name.

(** [str.lower] on the ASCII range.  In [_slugify] it is applied to the
    output of [sub_non_tag] only, which is ASCII. *)
Definition lower_char (c : N) : N := if is_upper c then c + 32 else c.
Definition lower (s : pystr) : pystr := List.map lower_char s.

(** ** replicator.py *)

Module Replicator.

Definition NAMESPACE : pystr := py "devreplicator-".

(** [url.rstrip("/").rstrip(".git")], the first two steps of both
    [_slugify] and [executor._extract_repo_name]. *)
Definition strip_suffix (url : pystr) : pystr :=
  rstrip (py ".git") (rstrip (py "/") url).

(** Line 172: [re.sub(...).lower().strip("-")]. *)
Definition sanitize (name : pystr) : pystr :=
  strip (py "-") (lower (sub_non_tag name)).

Definition _slugify (url : pystr) : pystr :=
  let name := last_piece (split (py "github.com/") (strip_suffix url)) in
  let name := sanitize name in
  take 128 (NAMESPACE ++ name).

End Replicator.

(** ** executor.py: the git half *)

Module Executor.

Inductive level : Type := Info | Warn | Error | Success.

(** What the process does to the outside world, in order. *)
Inductive event : Type :=
| Log (lv : level) (msg : pystr)
| Rmtree (path : pystr)
| Run (cmd : list pystr).

(** How a call ends: it returns, [sys.exit] ends the process, or an
    exception escapes. *)
Inductive outcome (A : Type) : Type :=
| Returned (a : A)
| SysExit (code : Z)
| Uncaught (e : exn).
Arguments Returned {A} a.
Arguments SysExit {A} code.
Arguments Uncaught {A} e.

Definition proc (A : Type) : Type := list event * outcome A.

Definition ret {A} (a : A) : proc A := ([], Returned a).
Definition emit (e : event) : proc unit := ([e], Returned tt).
Definition sys_exit {A} (code : Z) : proc A := ([], SysExit code).
Definition raise {A} (e : exn) : proc A := ([], Uncaught e).

#[global] Instance proc_bind : MBind proc := λ A B k m,
  match m with
  | (tr, Returned a) => let '(tr', o) := k a in (tr ++ tr', o)
  | (tr, SysExit c) => (tr, SysExit c)
  | (tr, Uncaught e) => (tr, Uncaught e)
  end.

(** The machine the tool runs on, as far as [clone_repository] looks
    at it. *)
Record Host : Type := {
  which_git : bool;                 (* shutil.which("git") is not None *)
  gettempdir : pystr;               (* tempfile.gettempdir() *)
  path_exists : pystr -> bool;      (* Path(p).exists() *)
  rmtree_error : pystr -> option exn;   (* shutil.rmtree(p); None: no error *)
  returncode : list pystr -> Z      (* subprocess.run(cmd, text=True).returncode *)
}.

Definition log_info (msg : pystr) : proc unit := emit (Log Info msg).
Definition log_warn (msg : pystr) : proc unit := emit (Log Warn msg).
Definition log_error (msg : pystr) : proc unit := emit (Log Error msg).
Definition log_success (msg : pystr) : proc unit := emit (Log Success msg).

Definition check_git (h : Host) : proc unit :=
  if which_git h then ret tt
  else
    log_error (py "git is not installed or not found in PATH.") ;;
    sys_exit 1%Z.

(** [_run(cmd, stream=True)]: the command runs and its return code
    comes back. *)
Definition _run (h : Host) (cmd : list pystr) : proc Z :=
  emit (Run cmd) ;; ret (returncode h cmd).

Definition rmtree (h : Host) (p : pystr) : proc unit :=
  emit (Rmtree p) ;;
  match rmtree_error h p with
  | None => ret tt
  | Some e => raise e
  end.

Definition _extract_repo_name (url : pystr) : pystr :=
  let url := Replicator.strip_suffix url in
  match last_piece (split (py "/") url) with
  | [] => py "repo"
  | name => name
  end.

(** [os.path.join(a, b)] on POSIX. *)
Definition path_join (a b : pystr) : pystr :=
  if startswith (py "/") b then b
  else match List.last a 47 with
       | 47 => a ++ b
       | _ => a ++ py "/" ++ b
       end.

Definition clone_cmd (url dest : pystr) : list pystr :=
  [py "git"; py "clone"; py "--depth=1"; url; dest].

Definition clone_dest (h : Host) (url : pystr) (dest : option pystr) : pystr :=
  match dest with
  | Some d => d
  | None => path_join (gettempdir h)
              (py "devreplicator_" ++ _extract_repo_name url)
  end.

Definition clone_repository (h : Host) (url : pystr) (dest : option pystr)
  : proc pystr :=
  check_git h ;;
  let dest := clone_dest h url dest in
  (if path_exists h dest
   then
     log_warn (py "Destination already exists " ++ [8212] ++ py " removing: "
               ++ dest) ;;
     rmtree h dest
   else ret tt) ;;
  log_info (py "Cloning " ++ url ++ [32; 8594; 32] ++ dest) ;;
  rc ← _run h (clone_cmd url dest);
  (if (rc =? 0)%Z then ret tt
   else
     log_error
       (py "git clone failed. Check the URL and your network connection.") ;;
     sys_exit 1%Z) ;;
  log_success (py "Repository cloned: " ++ dest) ;;
  ret dest.

End Executor.

(** ** detectors.py *)

Module Detectors.

Definition PYTHON_ENTRY_CANDIDATES : list pystr :=
  [py "app.py"; py "main.py"; py "server.py"; py "run.py"; py "manage.py";
   py "cli.py"].

Definition NODE_ENTRY_CANDIDATES : list pystr :=
  [py "index.js"; py "server.js"; py "app.js"; py "main.js";
   py "src/index.js"].

Record ProjectInfo : Type := {
  project_type : pystr;
  entry_point : option pystr;
  dep_file : option pystr;
  base_image : option pystr;
  start_command : option pystr;
  scanned_imports : list pystr
}.

(** *** What [json.loads] returns *)

Inductive pyobj : Type :=
| PyNone
| PyBool (b : bool)
| PyInt (z : Z)
| PyFloat (nonzero : bool)   (* a float; only its truth value is looked at *)
| PyStr (s : pystr)
| PyList (xs : list pyobj)
| PyDict (items : list (pystr * pyobj)).

(** [bool(v)] *)
Definition truthy (v : pyobj) : bool :=
  match v with
  | PyNone => false
  | PyBool b => b
  | PyInt z => negb (z =? 0)%Z
  | PyFloat nonzero => nonzero
  | PyStr s => match s with [] => false | _ => true end
  | PyList xs => match xs with [] => false | _ => true end
  | PyDict items => match items with [] => false | _ => true end
  end.

Definition pystr_eqb (a b : pystr) : bool := bool_decide (a = b).

(** Lookup in a dict given by its items; the keys of a dict are distinct,
    so the order of the items does not matter. *)
Fixpoint dict_lookup (k : pystr) (items : list (pystr * pyobj))
  : option pyobj :=
  match items with
  | [] => None
  | (k', v) :: rest => if pystr_eqb k k' then Some v else dict_lookup k rest
  end.

(** [data.get(k)]: only a dict has the method. *)
Definition py_get (data : pyobj) (k : pystr) : result pyobj :=
  match data with
  | PyDict items => Ok (default PyNone (dict_lookup k items))
  | _ => Raise AttributeError
  end.

(** The right operand of [root / main]: pathlib takes a [str] and
    answers any other JSON value with [TypeError]. *)
Definition path_operand (v : pyobj) : result pystr :=
  match v with
  | PyStr s => Ok s
  | _ => Raise TypeError
  end.

(** *** The cloned directory, as the detector observes it

    [stat_at p] is what is found at [root / p]: nothing, a regular file
    or a directory; [Path.exists] does not tell the last two apart.
    [root / p] is [p] itself when [p] is absolute, and it leaves the root
    when [p] climbs with [..].  [stat_fails p] tells that [stat] of
    [root / p] fails with an error [Path.exists] does not absorb (a name
    too long, a directory that may not be searched): [exists] then raises
    [OSError].  It is consulted for the name read from package.json; the
    candidate and manifest names of the detector are taken to be free of
    it.
    [package_json] is the outcome of [json.loads(pkg.read_text())]:
    [read_text] raises [OSError] or [UnicodeDecodeError], [json.loads]
    raises [JSONDecodeError] on a syntax error.  [rglob_py] is
    [list(root.rglob("*.py"))], each path with the outcome of
    [read_text(errors="ignore")]. *)

Inductive kind : Type := RegularFile | Directory.

Record PyFile : Type := {
  py_path : pystr;
  py_text : result pystr
}.

Record Repo : Type := {
  stat_at : pystr -> option kind;
  stat_fails : pystr -> bool;
  package_json : result pyobj;
  rglob_py : list PyFile
}.

(** [(root / p).exists()] *)
Definition exists_at (r : Repo) (p : pystr) : bool :=
  match stat_at r p with Some _ => true | None => false end.

(** [(root / p).is_file()] *)
Definition is_file_at (r : Repo) (p : pystr) : bool :=
  match stat_at r p with Some RegularFile => true | _ => false end.

(** [(root / p).exists()] for a name that comes from the repository. *)
Definition exists_checked (r : Repo) (p : pystr) : result bool :=
  if stat_fails r p then Raise OSError else Ok (exists_at r p).

(** The candidate loop shared by both entry-point searches. *)
Fixpoint first_existing (r : Repo) (candidates : list pystr)
  : option pystr :=
  match candidates with
  | [] => None
  | candidate :: rest =>
      if exists_at r candidate then Some candidate
      else first_existing r rest
  end.

Definition _find_python_entry (r : Repo) : option pystr :=
  first_existing r PYTHON_ENTRY_CANDIDATES.

(** The body of the [try] in [_find_node_entry]: [Some main] when it
    reaches [return main], [None] when it runs to its end. *)
Definition node_main_attempt (r : Repo) : result (option pystr) :=
  data ← package_json r;
  main ← py_get data (py "main");
  if truthy main then
    p ← path_operand main;
    found ← exists_checked r p;
    if (found : bool) then Ok (Some p) else Ok None
  else Ok None.

(** [except (json.JSONDecodeError, KeyError): pass] *)
Definition swallowed (e : exn) : bool :=
  match e with
  | JSONDecodeError | KeyError => true
  | _ => false
  end.

Definition _find_node_entry (r : Repo) : result (option pystr) :=
  let candidates := Ok (first_existing r NODE_ENTRY_CANDIDATES) in
  if exists_at r (py "package.json") then
    match node_main_attempt r with
    | Ok (Some main) => Ok (Some main)
    | Ok None => candidates
    | Raise e => if swallowed e then candidates else Raise e
    end
  else candidates.

(** *** The import scan *)

Definition stdlib_prefixes : list pystr :=
  [py "os"; py "sys"; py "re"; py "io"; py "abc"; py "ast"; py "csv";
   py "json"; py "math"; py "time"; py "enum"; py "uuid"; py "copy";
   py "glob"; py "gzip"; py "hmac"; py "html"; py "http"; py "logging";
   py "pathlib"; py "shutil"; py "socket"; py "struct"; py "string";
   py "threading"; py "traceback"; py "typing"; py "unittest";
   py "urllib"; py "xml"; py "zipfile"; py "subprocess";
   py "collections"; py "contextlib"; py "dataclasses"; py "datetime";
   py "functools"; py "hashlib"; py "inspect"; py "itertools";
   py "multiprocessing"; py "operator"; py "random"; py "signal";
   py "stat"; py "tempfile"; py "textwrap"; py "warnings"].

(** The line boundaries of [str.splitlines]. *)
Definition is_linebreak (c : N) : bool :=
  char_in c [10; 11; 12; 13; 28; 29; 30; 133; 8232; 8233].

(** [text.splitlines()]; [after_cr] is set right after a carriage
    return, so that the line feed of a CR LF pair ends no second line. *)
Fixpoint splitlines_go (after_cr : bool) (cur s : pystr) : list pystr :=
  match s with
  | [] => match cur with [] => [] | _ => [reverse cur] end
  | c :: s' =>
      if after_cr && (c =? 10) then splitlines_go false cur s'
      else if is_linebreak c
           then reverse cur :: splitlines_go (c =? 13) [] s'
           else splitlines_go false (c :: cur) s'
  end.

Definition splitlines (text : pystr) : list pystr :=
  splitlines_go false [] text.

(** The class of white space of a [str] pattern: Unicode white space. *)
Definition is_space (c : N) : bool :=
  ((9 <=? c) && (c <=? 13)) || ((28 <=? c) && (c <=? 32))
  || (c =? 133) || (c =? 160) || (c =? 5760)
  || ((8192 <=? c) && (c <=? 8202))
  || (c =? 8232) || (c =? 8233) || (c =? 8239) || (c =? 8287)
  || (c =? 12288).

(** [[a-zA-Z_]] and [[a-zA-Z0-9_]] *)
Definition ident_start (c : N) : bool :=
  is_lower c || is_upper c || (c =? 95).
Definition ident_char (c : N) : bool := ident_start c || is_digit c.

Fixpoint skip_spaces (s : pystr) : pystr :=
  match s with
  | c :: s' => if is_space c then skip_spaces s' else s
  | [] => []
  end.

Fixpoint ident_tail (s : pystr) : pystr :=
  match s with
  | c :: s' => if ident_char c then c :: ident_tail s' else []
  | [] => []
  end.

(** [(?:import|from)]: what follows the keyword, if the keyword is
    there. *)
Definition after_keyword (s : pystr) : option pystr :=
  if startswith (py "import") s then Some (drop 6 s)
  else if startswith (py "from") s then Some (drop 4 s)
  else None.

(** [import_re.match(line)] followed by [m.group(1)].  The pattern
    reads: start of line, any white space, the word import or from, at
    least one white space, then the group, which is one character of
    [a-zA-Z_] and after it as many of [a-zA-Z0-9_] as there are.  Every
    quantifier is greedy and is followed by a character outside its
    class, so no backtracking takes place. *)
Definition import_match (line : pystr) : option pystr :=
  match after_keyword (skip_spaces line) with
  | Some (c :: rest) =>
      if is_space c then
        match skip_spaces rest with
        | d :: tail =>
            if ident_start d then Some (d :: ident_tail tail) else None
        | [] => None
        end
      else None
  | _ => None
  end.

(** The body of the loop over the lines of one file. *)
Definition scan_line (found : gset pystr) (line : pystr) : gset pystr :=
  match import_match line with
  | Some pkg =>
      if bool_decide (pkg ∈ stdlib_prefixes) then found
      else {[ pkg ]} ∪ found
  | None => found
  end.

(** One turn of the loop over the files: [except OSError: continue]. *)
Definition scan_file (found : gset pystr) (f : PyFile)
  : result (gset pystr) :=
  match py_text f with
  | Ok text => Ok (foldl scan_line found (splitlines text))
  | Raise OSError => Ok found
  | Raise e => Raise e
  end.

Fixpoint scan_files (found : gset pystr) (py_files : list PyFile)
  : result (gset pystr) :=
  match py_files with
  | [] => Ok found
  | fpath :: rest => found' ← scan_file found fpath; scan_files found' rest
  end.

Definition _scan_python_imports (py_files : list PyFile)
  : result (gset pystr) :=
  scan_files ∅ py_files.

(** *** Detection *)

(** [f"python {entry}" if entry else None] *)
Definition python_start (entry : option pystr) : option pystr :=
  match entry with
  | Some (c :: e) => Some (py "python " ++ c :: e)
  | _ => None
  end.

Definition detect_project (r : Repo) : result ProjectInfo :=
  if exists_at r (py "requirements.txt") then
    let entry := _find_python_entry r in
    Ok {| project_type := py "python";
          entry_point := entry;
          dep_file := Some (py "requirements.txt");
          base_image := Some (py "python:3.11-slim");
          start_command := python_start entry;
          scanned_imports := [] |}
  else if exists_at r (py "pyproject.toml") then
    let entry := _find_python_entry r in
    Ok {| project_type := py "poetry";
          entry_point := entry;
          dep_file := Some (py "pyproject.toml");
          base_image := Some (py "python:3.11-slim");
          start_command := python_start entry;
          scanned_imports := [] |}
  else if exists_at r (py "package.json") then
    entry ← _find_node_entry r;
    Ok {| project_type := py "node";
          entry_point := entry;
          dep_file := Some (py "package.json");
          base_image := Some (py "node:18-slim");
          start_command := Some (py "npm start");
          scanned_imports := [] |}
  else
    match rglob_py r with
    | _ :: _ =>
        imports ← _scan_python_imports (rglob_py r);
        let entry := _find_python_entry r in
        Ok {| project_type := py "python";
              entry_point := entry;
              dep_file := None;
              base_image := Some (py "python:3.11-slim");
              start_command := python_start entry;
              scanned_imports := elements imports |}
    | [] =>
        Ok {| project_type := py "unknown";
              entry_point := None;
              dep_file := None;
              base_image := None;
              start_command := None;
              scanned_imports := [] |}
    end.

End Detectors.

(** ** utils.py: the console *)

Module Utils.

(** Exceptions met outside the detector and the clone step. *)
Inductive pyexc : Type :=
| Builtin (e : exn)
| ValueError
| EOFError.

(** What a run shows and does, in order: the events of the clone step,
    the headings and progress lines of [log_section] and [log_step], bare
    [print] calls, and a call of [input] with the question it shows.
    Colours and time stamps are left out. *)
Inductive event : Type :=
| Out (e : Executor.event)
| Heading (title : pystr)
| Step (step total : Z) (msg : pystr)
| Print (text : pystr)
| Input (question : pystr).

Inductive ending (A : Type) : Type :=
| Finished (a : A)
| Exited (code : Z)
| Escaped (e : pyexc).
Arguments Finished {A} a.
Arguments Exited {A} code.
Arguments Escaped {A} e.

(** A computation at the console: it is given the lines still to come
    on standard input and ends with a value and the lines it has left,
    with [sys.exit], or with an exception. *)
Definition cli (A : Type) : Type :=
  list pystr → list event * ending (A * list pystr).

Definition ret {A} (a : A) : cli A := λ stdin, ([], Finished (a, stdin)).
Definition emit (e : event) : cli unit := λ stdin, ([e], Finished (tt, stdin)).
Definition sys_exit {A} (code : Z) : cli A := λ _, ([], Exited code).
Definition raise {A} (e : pyexc) : cli A := λ _, ([], Escaped e).

#[global] Instance cli_bind : MBind cli := λ A B k m stdin,
  match m stdin with
  | (tr, Finished (a, rest)) => let '(tr', o) := k a rest in (tr ++ tr', o)
  | (tr, Exited c) => (tr, Exited c)
  | (tr, Escaped e) => (tr, Escaped e)
  end.

(** A call of the clone step from the console. *)
Definition lift {A} (p : Executor.proc A) : cli A := λ stdin,
  (Out <$> fst p,
   match snd p with
   | Executor.Returned a => Finished (a, stdin)
   | Executor.SysExit c => Exited c
   | Executor.Uncaught e => Escaped (Builtin e)
   end).

(** A call of the detector from the console. *)
Definition lift_result {A} (x : result A) : cli A :=
  match x with
  | Ok a => ret a
  | Raise e => raise (Builtin e)
  end.

Definition log_info (msg : pystr) : cli unit :=
  emit (Out (Executor.Log Executor.Info msg)).
Definition log_success (msg : pystr) : cli unit :=
  emit (Out (Executor.Log Executor.Success msg)).
Definition log_warn (msg : pystr) : cli unit :=
  emit (Out (Executor.Log Executor.Warn msg)).
Definition log_error (msg : pystr) : cli unit :=
  emit (Out (Executor.Log Executor.Error msg)).
Definition log_step (step total : Z) (msg : pystr) : cli unit :=
  emit (Step step total msg).
Definition log_section (title : pystr) : cli unit := emit (Heading title).
Definition print (text : pystr) : cli unit := emit (Print text).

(** [input(question)]: the next line of standard input, [EOFError] when
    there is none. *)
Definition input (question : pystr) : cli pystr := λ stdin,
  match stdin with
  | line :: rest => ([Input question], Finished (line, rest))
  | [] => ([Input question], Escaped EOFError)
  end.

(** The white space [str.strip()] removes. *)
Definition WHITESPACE : pystr :=
  [9; 10; 11; 12; 13; 28; 29; 30; 31; 32; 133; 160; 5760;
   8192; 8193; 8194; 8195; 8196; 8197; 8198; 8199; 8200; 8201; 8202;
   8232; 8233; 8239; 8287; 12288].

(** [s.strip()] *)
Definition strip_ws (s : pystr) : pystr := strip WHITESPACE s.

Definition prompt (msg : pystr) : cli pystr :=
  line ← input msg; ret (strip_ws line).

(** [answer in ("y", "yes")] *)
Definition is_yes (answer : pystr) : bool :=
  bool_decide (answer = py "y") || bool_decide (answer = py "yes").

(** [confirm(msg, default)].  [str.lower] is taken on the ASCII range: no
    other character has y, e or s in its lower case, so the test against
    y and yes comes out the same. *)
Definition confirm (msg : pystr) (default : bool) : cli bool :=
  let hint := if default then py "[Y/n]" else py "[y/N]" in
  line ← input (msg ++ py " " ++ hint);
  let answer := lower (strip_ws line) in
  match answer with
  | [] => ret default
  | _ => ret (is_yes answer)
  end.

End Utils.

(** ** executor.py: the Docker half *)

Module Docker.
Import Utils.

(** [subprocess.CompletedProcess]: [stdout] is [None] unless the output
    was captured. *)
Record CompletedProcess : Type := {
  cp_returncode : Z;
  cp_stdout : option pystr
}.

(** The machine of the clone step, and whether it has a docker binary. *)
Record Machine : Type := {
  host : Executor.Host;
  which_docker : bool            (* shutil.which("docker") is not None *)
}.

(** [_run(cmd, stream, capture)].  With [stream] the command runs with
    its output on the terminal.  Without it the call is
    [subprocess.run(cmd, text=True, capture_output=capture,
    stdout=PIPE if capture else None, stderr=...)], and [subprocess.run]
    answers [capture_output=True] together with a [stdout] or [stderr]
    argument by raising [ValueError] before it starts anything. *)
Definition _run (m : Machine) (cmd : list pystr) (stream capture : bool)
  : cli CompletedProcess :=
  if stream then
    emit (Out (Executor.Run cmd)) ;;
    ret {| cp_returncode := Executor.returncode (host m) cmd;
           cp_stdout := None |}
  else if capture then raise ValueError
  else
    emit (Out (Executor.Run cmd)) ;;
    ret {| cp_returncode := Executor.returncode (host m) cmd;
           cp_stdout := None |}.

(** [result.stdout.strip()]: [None] has no [strip]. *)
Definition stdout_strip (result : CompletedProcess) : cli pystr :=
  match cp_stdout result with
  | Some out => ret (strip_ws out)
  | None => raise (Builtin AttributeError)
  end.

Definition check_docker (m : Machine) : cli unit :=
  (if which_docker m then ret tt
   else
     log_error (py "Docker is not installed or not found in PATH." ++ [10]
                ++ py "  Install Docker Desktop: "
                ++ py "https://docs.docker.com/get-docker/") ;;
     sys_exit 1%Z) ;;
  result ← _run m [py "docker"; py "info"] false true;
  if (cp_returncode result =? 0)%Z then ret tt
  else
    log_error (py "Docker daemon is not running." ++ [10]
               ++ py "  Start Docker Desktop or run: "
               ++ py "sudo systemctl start docker") ;;
    sys_exit 1%Z.

(** [Path(p).name]: the last component of [p] that is neither empty nor
    a single dot, the empty string if there is none. *)
Definition path_name (p : pystr) : pystr :=
  List.last
    (List.filter (λ part, negb (bool_decide (part = []))
                          && negb (bool_decide (part = py ".")))
       (split (py "/") p))
    [].

Definition build_cmd (repo_path dockerfile_path image_tag : pystr)
  : list pystr :=
  [py "docker"; py "build"; py "-f"; dockerfile_path; py "-t"; image_tag;
   repo_path].

Definition build_image (m : Machine)
    (repo_path dockerfile_path image_tag : pystr) : cli bool :=
  check_docker m ;;
  let dockerfile_name := path_name dockerfile_path in
  log_info (py "Building Docker image: " ++ image_tag) ;;
  log_info (py "Context: " ++ repo_path ++ py "  |  Dockerfile: "
            ++ dockerfile_name) ;;
  result ← _run m (build_cmd repo_path dockerfile_path image_tag) true false;
  if (cp_returncode result =? 0)%Z then
    log_success (py "Image built successfully: " ++ image_tag) ;;
    ret true
  else
    log_error (py "Docker build failed. Review the output above.") ;;
    ret false.

Definition _remove_existing_container (m : Machine) (name : pystr)
  : cli unit :=
  result ← _run m [py "docker"; py "ps"; py "-aq"; py "--filter";
                   py "name=^" ++ name ++ py "$"] false true;
  cid ← stdout_strip result;
  match cid with
  | [] => ret tt
  | _ =>
      log_warn (py "Removing existing container: " ++ name) ;;
      _run m [py "docker"; py "rm"; py "-f"; cid] false true ;;
      ret tt
  end.

Definition _print_container_status (m : Machine) (name : pystr)
  : cli unit :=
  result ← _run m [py "docker"; py "ps"; py "--filter"; py "name=" ++ name;
                   py "--format";
                   py "table {{.ID}}" ++ [9] ++ py "{{.Image}}" ++ [9]
                   ++ py "{{.Status}}" ++ [9] ++ py "{{.Ports}}"] false true;
  out ← stdout_strip result;
  match out with
  | [] => ret tt
  | _ =>
      print [] ;;
      foldr (λ line rest, print (py "  " ++ line) ;; rest) (ret tt)
        (Detectors.splitlines out) ;;
      print []
  end.

(** [str(n)] for an [int]. *)
Definition py_str_int (n : Z) : pystr :=
  py (DecimalString.NilZero.string_of_int (Z.to_int n)).

Definition run_cmd (image_tag container_name : pystr)
    (port_mapping : option (Z * Z)) (detach : bool) : list pystr :=
  [py "docker"; py "run"; py "--name"; container_name]
  ++ (if detach then [py "-d"] else [])
  ++ match port_mapping with
     | Some (host_port, container_port) =>
         [py "-p"; py_str_int host_port ++ py ":" ++ py_str_int container_port]
     | None => []
     end
  ++ [image_tag].

Definition run_container (m : Machine) (image_tag container_name : pystr)
    (port_mapping : option (Z * Z)) (detach : bool) : cli bool :=
  _remove_existing_container m container_name ;;
  let cmd := run_cmd image_tag container_name port_mapping detach in
  log_info (py "Starting container: " ++ container_name) ;;
  result ← _run m cmd (negb detach) detach;
  if (cp_returncode result =? 0)%Z then
    (if detach then
       out ← stdout_strip result;
       let container_id := take 12 out in
       log_success (py "Container running (detached)  id=" ++ container_id) ;;
       _print_container_status m container_name ;;
       match port_mapping with
       | Some (host_port, _) =>
           log_info (py "Accessible at: http://localhost:"
                     ++ py_str_int host_port)
       | None => ret tt
       end
     else log_success (py "Container exited cleanly.")) ;;
    ret true
  else
    log_error (py "Failed to start container. Review the output above.") ;;
    ret false.

End Docker.

(** ** replicator.py: the command-line run *)

Module Orchestrator.
Import Utils.

Definition TOTAL_STEPS : Z := 5.

(** The tail [.+/.+] of the pattern of [_valid_github_url], matched at
    the head of [s]: a slash that has at least one character before it
    and one after it, none of them a line feed (the dot of a pattern
    matches every character but the line feed).  [seen] tells whether a
    character has gone by. *)
Fixpoint owner_slash_repo (seen : bool) (s : pystr) : bool :=
  match s with
  | [] => false
  | c :: s' =>
      if c =? 10 then false
      else if seen && (c =? 47)
                && match s' with d :: _ => negb (d =? 10) | [] => false end
           then true
           else owner_slash_repo true s'
  end.

(** [bool(re.match(r"https?://(www\.)?github\.com/.+/.+", url))] *)
Definition _valid_github_url (url : pystr) : bool :=
  let after_scheme :=
    if startswith (py "https://") url then Some (drop 8 url)
    else if startswith (py "http://") url then Some (drop 7 url)
    else None in
  match after_scheme with
  | None => false
  | Some rest =>
      let rest := if startswith (py "www.") rest then drop 4 rest else rest in
      startswith (py "github.com/") rest
      && owner_slash_repo false (drop 11 rest)
  end.

(** What the run needs besides the console: the machine, the directory
    found at a path after the clone, the Dockerfile generator of
    [docker_generator.py], which is not part of these sources and may log,
    return a path, exit or raise, and [int] on a string ([None] for
    [ValueError]). *)
Record World : Type := {
  machine : Docker.Machine;
  repo_at : pystr → Detectors.Repo;
  generate_dockerfile : pystr → Detectors.ProjectInfo → cli pystr;
  py_int : pystr → option Z
}.

(** [x or default] for an optional string and for a string. *)
Definition opt_or (x : option pystr) (default : pystr) : pystr :=
  match x with
  | Some (c :: s) => c :: s
  | _ => default
  end.

Definition str_or (s default : pystr) : pystr :=
  match s with
  | [] => default
  | _ => s
  end.

(** [int(prompt(msg) or default)] *)
Definition prompt_int (w : World) (msg default : pystr) : cli Z :=
  answer ← prompt msg;
  match py_int w (str_or answer default) with
  | Some n => ret n
  | None => raise ValueError
  end.

(** [info.project_type in ("python", "poetry")] *)
Definition is_python_like (info : Detectors.ProjectInfo) : bool :=
  Detectors.pystr_eqb (Detectors.project_type info) (py "python")
  || Detectors.pystr_eqb (Detectors.project_type info) (py "poetry").

(** Lines 71 to 74: an unknown stack is completed from the console. *)
Definition resolve_unknown (info : Detectors.ProjectInfo)
  : cli Detectors.ProjectInfo :=
  if Detectors.pystr_eqb (Detectors.project_type info) (py "unknown") then
    log_warn (py "Project type could not be determined automatically.") ;;
    base ← prompt (py "Enter Docker base image (e.g. ubuntu:22.04):");
    start ← prompt (py "Enter start command (e.g. bash):");
    ret {| Detectors.project_type := Detectors.project_type info;
           Detectors.entry_point := Detectors.entry_point info;
           Detectors.dep_file := Detectors.dep_file info;
           Detectors.base_image := Some (str_or base (py "ubuntu:22.04"));
           Detectors.start_command := Some (str_or start (py "bash"));
           Detectors.scanned_imports := Detectors.scanned_imports info |}
  else ret info.

(** Lines 77 to 81: a missing Python entry point is asked for. *)
Definition resolve_entry (info : Detectors.ProjectInfo)
  : cli Detectors.ProjectInfo :=
  let missing :=
    match Detectors.entry_point info with
    | Some (_ :: _) => false
    | _ => true
    end in
  if missing && is_python_like info then
    answer ← prompt (py "Entry point not found. Specify filename "
                     ++ py "(or press Enter to skip):");
    match strip_ws answer with
    | [] => ret info
    | custom_entry =>
        ret {| Detectors.project_type := Detectors.project_type info;
               Detectors.entry_point := Some custom_entry;
               Detectors.dep_file := Detectors.dep_file info;
               Detectors.base_image := Detectors.base_image info;
               Detectors.start_command := Some (py "python " ++ custom_entry);
               Detectors.scanned_imports := Detectors.scanned_imports info |}
    end
  else ret info.

(** Lines 104 to 113: the port mapping, by stack. *)
Definition choose_ports (w : World) (info : Detectors.ProjectInfo)
  : cli (option (Z * Z)) :=
  if Detectors.pystr_eqb (Detectors.project_type info) (py "node") then
    host_port ← prompt_int w (py "Map host port (default 3000):") (py "3000");
    ret (Some (host_port, 3000%Z))
  else if is_python_like info then
    use_port ← confirm (py "Expose a port? (e.g. for Flask/FastAPI)") false;
    if (use_port : bool) then
      host_port ← prompt_int w (py "Host port (default 8000):") (py "8000");
      container_port ←
        prompt_int w (py "Container port (default 8000):") (py "8000");
      ret (Some (host_port, container_port))
    else ret None
  else ret None.

Definition _run_cli (w : World) : cli unit :=
  log_section (py "DevReplicator " ++ [8212] ++ py " CLI Mode") ;;
  url ← prompt (py "GitHub repository URL:");
  (match url with
   | [] => log_error (py "No URL provided. Exiting.") ;; sys_exit 1%Z
   | _ => ret tt
   end) ;;
  (if _valid_github_url url then ret tt
   else log_warn (py "URL does not look like a GitHub repository. "
                  ++ py "Proceeding anyway " ++ [8230])) ;;
  log_section (py "Step 1 / 5 " ++ [8212] ++ py " Cloning Repository") ;;
  log_step 1 TOTAL_STEPS (py "Cloning: " ++ url) ;;
  repo_path ←
    lift (Executor.clone_repository (Docker.host (machine w)) url None);
  log_section (py "Step 2 / 5 " ++ [8212] ++ py " Detecting Project Type") ;;
  log_step 2 TOTAL_STEPS (py "Analyzing project structure " ++ [8230]) ;;
  info ← lift_result (Detectors.detect_project (repo_at w repo_path));
  log_info (py "Project type   : " ++ Detectors.project_type info) ;;
  log_info (py "Dependency file: "
            ++ opt_or (Detectors.dep_file info) (py "None")) ;;
  log_info (py "Entry point    : "
            ++ opt_or (Detectors.entry_point info) (py "None")) ;;
  log_info (py "Base image     : "
            ++ opt_or (Detectors.base_image info) (py "Not determined")) ;;
  info ← resolve_unknown info;
  info ← resolve_entry info;
  log_section (py "Step 3 / 5 " ++ [8212] ++ py " Generating Dockerfile") ;;
  log_step 3 TOTAL_STEPS (py "Generating Dockerfile " ++ [8230]) ;;
  dockerfile_path ← generate_dockerfile w repo_path info;
  let image_tag := Replicator._slugify url in
  let container_name := py "devreplicator-" ++ image_tag in
  log_section (py "Step 4 / 5 " ++ [8212] ++ py " Building Docker Image") ;;
  log_step 4 TOTAL_STEPS (py "Building image: " ++ image_tag) ;;
  success ← Docker.build_image (machine w) repo_path dockerfile_path
              image_tag;
  (if (success : bool) then ret tt
   else log_error (py "Build failed. Aborting.") ;; sys_exit 1%Z) ;;
  log_section (py "Step 5 / 5 " ++ [8212] ++ py " Running Container") ;;
  log_step 5 TOTAL_STEPS (py "Starting container " ++ [8230]) ;;
  port_mapping ← choose_ports w info;
  detach ← confirm (py "Run container in background (detached)?") true;
  Docker.run_container (machine w) image_tag container_name port_mapping
    detach ;;
  log_section (py "Complete") ;;
  log_success (py "DevReplicator finished successfully.") ;;
  log_info (py "Image:     " ++ image_tag) ;;
  log_info (py "Container: " ++ container_name) ;;
  log_info (py "Source:    " ++ repo_path) ;;
  print [] ;;
  log_info (py "Useful commands:") ;;
  print (py "  docker logs -f " ++ container_name) ;;
  print (py "  docker exec -it " ++ container_name ++ py " bash") ;;
  print (py "  docker stop " ++ container_name) ;;
  print (py "  docker rm   " ++ container_name) ;;
  print [].

End Orchestrator.

(** * Vocabulary of the specification *)

(** The class [[a-z0-9._-]] the specification gives for image tags. *)
Definition image_tag_char (c : N) : bool :=
  is_lower c || is_digit c || (c =? 46) || (c =? 95) || (c =? 45).

(** The characters [str.rstrip(".git")] removes: a set, not a suffix. *)
Definition git_suffix_char (c : N) : Prop :=
  c = 46 ∨ c = 103 ∨ c = 105 ∨ c = 116.

(** A token of the shape [[a-zA-Z_][a-zA-Z0-9_]*]. *)
Definition is_identifier (s : pystr) : Prop :=
  match s with
  | [] => False
  | c :: t =>
      Detectors.ident_start c = true
      ∧ Forall (λ d, Detectors.ident_char d = true) t
  end.

(** [candidate] is the first entry of [candidates] that passes [test]. *)
Definition first_hit (test : pystr → bool) (candidates : list pystr)
    (candidate : pystr) : Prop :=
  ∃ before after,
    candidates = before ++ candidate :: after
    ∧ Forall (λ c, test c = false) before
    ∧ test candidate = true.

(** No entry of [candidates] passes [test]. *)
Definition no_hit (test : pystr → bool) (candidates : list pystr) : Prop :=
  Forall (λ c, test c = false) candidates.

(** The results of the five detection rules, in the words of the
    specification. *)
Definition pinned_python : pystr := py "python:3.11-slim".
Definition pinned_node : pystr := py "node:18-slim".

Definition pip_result (entry : option pystr) : Detectors.ProjectInfo :=
  {| Detectors.project_type := py "python";
     Detectors.entry_point := entry;
     Detectors.dep_file := Some (py "requirements.txt");
     Detectors.base_image := Some pinned_python;
     Detectors.start_command := Detectors.python_start entry;
     Detectors.scanned_imports := [] |}.

Definition poetry_result (entry : option pystr) : Detectors.ProjectInfo :=
  {| Detectors.project_type := py "poetry";
     Detectors.entry_point := entry;
     Detectors.dep_file := Some (py "pyproject.toml");
     Detectors.base_image := Some pinned_python;
     Detectors.start_command := Detectors.python_start entry;
     Detectors.scanned_imports := [] |}.

Definition node_result (entry : option pystr) : Detectors.ProjectInfo :=
  {| Detectors.project_type := py "node";
     Detectors.entry_point := entry;
     Detectors.dep_file := Some (py "package.json");
     Detectors.base_image := Some pinned_node;
     Detectors.start_command := Some (py "npm start");
     Detectors.scanned_imports := [] |}.

Definition source_result (entry : option pystr) (imports : list pystr)
  : Detectors.ProjectInfo :=
  {| Detectors.project_type := py "python";
     Detectors.entry_point := entry;
     Detectors.dep_file := None;
     Detectors.base_image := Some pinned_python;
     Detectors.start_command := Detectors.python_start entry;
     Detectors.scanned_imports := imports |}.

Definition unknown_result : Detectors.ProjectInfo :=
  {| Detectors.project_type := py "unknown";
     Detectors.entry_point := None;
     Detectors.dep_file := None;
     Detectors.base_image := None;
     Detectors.start_command := None;
     Detectors.scanned_imports := [] |}.

(** A source file the scan can deal with: [read_text] returns its text, or
    fails with [OSError]. *)
Definition scannable (f : Detectors.PyFile) : Prop :=
  (∃ text, Detectors.py_text f = Ok text)
  ∨ Detectors.py_text f = Raise OSError.

(** Some line of some readable file of [py_files] imports [pkg]. *)
Definition imported_in (py_files : list Detectors.PyFile) (pkg : pystr)
  : Prop :=
  ∃ f text line,
    f ∈ py_files
    ∧ Detectors.py_text f = Ok text
    ∧ line ∈ Detectors.splitlines text
    ∧ Detectors.import_match line = Some pkg.

(** The diagnostic of a failed clone. *)
Definition clone_diagnostic : Executor.event :=
  Executor.Log Executor.Error
    (py "git clone failed. Check the URL and your network connection.").

(** ** Sample inputs *)

Module Samples.
Import Detectors Executor.

Definition url_blog : pystr := py "https://github.com/user/blog".
Definition url_repo : pystr := py "https://github.com/user/repo".
Definition url_git_org : pystr := py "https://github.com/git".

(** An owner of 14 characters and a repository name of 100 characters
    whose 99th is a dash: the dash lands on position 128 of the tag. *)
Definition url_long : pystr :=
  py "https://github.com/" ++ replicate 14 111 ++ py "/"
  ++ replicate 98 114 ++ py "-x".

(** A directory given by its entries; the root itself, [root / ""],
    is there in any case. *)
Fixpoint listing (entries : list (pystr * kind)) (p : pystr)
  : option kind :=
  match entries with
  | [] => match p with [] => Some Directory | _ => None end
  | (name, k) :: rest =>
      if pystr_eqb p name then Some k else listing rest p
  end.

(** [read_text] of a file that is not there. *)
Definition no_manifest : result pyobj := Raise OSError.

Definition main_py : PyFile :=
  {| py_path := py "main.py";
     py_text := Ok (py "import os" ++ [10] ++ py "import requests"
                    ++ [10] ++ py "from flask import Flask" ++ [10]) |}.

Definition worker_py : PyFile :=
  {| py_path := py "jobs/worker.py";
     py_text := Ok (py "    import requests" ++ [13; 10]
                    ++ py "from . import util" ++ [13; 10]
                    ++ py "from json import loads" ++ [13; 10]) |}.

(** requirements.txt, pyproject.toml and main.py. *)
Definition repo_both : Repo :=
  {| stat_at := listing [(py "requirements.txt", RegularFile);
                         (py "pyproject.toml", RegularFile);
                         (py "main.py", RegularFile)];
     stat_fails := λ _, false;
     package_json := no_manifest;
     rglob_py := [main_py] |}.

(** requirements.txt, a directory named app.py and a file main.py. *)
Definition repo_app_dir : Repo :=
  {| stat_at := listing [(py "requirements.txt", RegularFile);
                         (py "app.py", Directory);
                         (py "main.py", RegularFile)];
     stat_fails := λ _, false;
     package_json := no_manifest;
     rglob_py := [ {| py_path := py "app.py"; py_text := Raise OSError |};
                   main_py ] |}.

(** package.json is [{"main": "src/index.js"}] and the file is there. *)
Definition repo_node : Repo :=
  {| stat_at := listing [(py "package.json", RegularFile);
                         (py "src", Directory);
                         (py "src/index.js", RegularFile);
                         (py "server.js", RegularFile)];
     stat_fails := λ _, false;
     package_json :=
       Ok (PyDict [(py "name", PyStr (py "demo"));
                   (py "main", PyStr (py "src/index.js"))]);
     rglob_py := [] |}.



(** package.json is the JSON document [[]]. *)
Definition repo_node_array : Repo :=
  {| stat_at := listing [(py "package.json", RegularFile);
                         (py "index.js", RegularFile)];
     stat_fails := λ _, false;
     package_json := Ok (PyList []);
     rglob_py := [] |}.

(** package.json is [{"main": 1}]. *)
Definition repo_node_number : Repo :=
  {| stat_at := listing [(py "package.json", RegularFile);
                         (py "index.js", RegularFile)];
     stat_fails := λ _, false;
     package_json := Ok (PyDict [(py "main", PyInt 1)]);
     rglob_py := [] |}.

(** package.json cannot be opened. *)
Definition repo_node_unreadable : Repo :=
  {| stat_at := listing [(py "package.json", RegularFile);
                         (py "index.js", RegularFile)];
     stat_fails := λ _, false;
     package_json := Raise OSError;
     rglob_py := [] |}.

(** package.json is [{"main": "aaa...a"}] with 300 letters: [stat]
    answers that the name is too long. *)
Definition long_name : pystr := replicate 300 97.

Definition repo_node_long_main : Repo :=
  {| stat_at := listing [(py "package.json", RegularFile);
                         (py "index.js", RegularFile)];
     stat_fails := λ p, pystr_eqb p long_name;
     package_json := Ok (PyDict [(py "main", PyStr long_name)]);
     rglob_py := [] |}.

(** package.json is [{"main": "/etc/hostname"}]: [root / main] is
    /etc/hostname, a file of the machine outside the repository. *)
Definition repo_node_absolute_main : Repo :=
  {| stat_at := listing [(py "package.json", RegularFile);
                         (py "index.js", RegularFile);
                         (py "/etc/hostname", RegularFile)];
     stat_fails := λ _, false;
     package_json := Ok (PyDict [(py "main", PyStr (py "/etc/hostname"))]);
     rglob_py := [] |}.

(** No manifest, two Python sources. *)
Definition repo_sources : Repo :=
  {| stat_at := listing [(py "main.py", RegularFile);
                         (py "jobs", Directory);
                         (py "jobs/worker.py", RegularFile)];
     stat_fails := λ _, false;
     package_json := no_manifest;
     rglob_py := [main_py; worker_py] |}.

(** An empty directory. *)
Definition repo_empty : Repo :=
  {| stat_at := listing [];
     stat_fails := λ _, false;
     package_json := no_manifest;
     rglob_py := [] |}.

(** A machine with git, an empty temporary directory and no network:
    every command ends with status 128. *)
Definition host_offline : Host :=
  {| which_git := true;
     gettempdir := py "/tmp";
     path_exists := λ _, false;
     rmtree_error := λ _, None;
     returncode := λ _, 128%Z |}.

(** The same machine with a network: every command ends with status 0. *)
Definition host_online : Host :=
  {| which_git := true;
     gettempdir := py "/tmp";
     path_exists := λ _, false;
     rmtree_error := λ _, None;
     returncode := λ _, 0%Z |}.

End Samples.

(** ** Vocabulary of the further properties *)

(** The strings the pattern of [_valid_github_url] matches at their
    head: a scheme, an optional [www.], the host, an owner of at least one
    character, a slash and one more character, with no line feed from the
    owner on. *)
Definition github_url_shape (url : pystr) : Prop :=
  ∃ scheme www owner c rest,
    (scheme = py "http" ∨ scheme = py "https")
    ∧ (www = [] ∨ www = py "www.")
    ∧ url = scheme ++ py "://" ++ www ++ py "github.com/"
            ++ owner ++ 47 :: c :: rest
    ∧ owner ≠ [] ∧ (10 ∉ owner) ∧ c ≠ 10.

(** The lines the pattern of the import scan matches, with the token it
    captures: white space, [import] or [from], white space, the token,
    and then the end of the line or a character that cannot go on a
    token. *)
Definition import_line (line pkg : pystr) : Prop :=
  ∃ indent keyword gap rest,
    line = indent ++ keyword ++ gap ++ pkg ++ rest
    ∧ Forall (λ c, Detectors.is_space c = true) indent
    ∧ (keyword = py "import" ∨ keyword = py "from")
    ∧ gap ≠ [] ∧ Forall (λ c, Detectors.is_space c = true) gap
    ∧ is_identifier pkg
    ∧ (∀ c, head rest = Some c → Detectors.ident_char c = false).

(** A console computation that cannot end with a value: whatever the
    input, it ends with [sys.exit] or with an exception. *)
Definition never_finishes {A} (m : Utils.cli A) : Prop :=
  ∀ stdin,
    (∃ code, snd (m stdin) = Utils.Exited code)
    ∨ (∃ e, snd (m stdin) = Utils.Escaped e).

(** The commands a console computation starts all satisfy [P]. *)
Definition runs_only {A} (P : list pystr → Prop) (m : Utils.cli A) : Prop :=
  ∀ stdin cmd, Utils.Out (Executor.Run cmd) ∈ fst (m stdin) → P cmd.

Module MoreSamples.
Import Utils Docker Orchestrator.

(** A machine with git, docker and a network. *)
Definition machine_ready : Machine :=
  {| host := Samples.host_online; which_docker := true |}.

(** A generator that writes nothing to the console and returns the path
    of a Dockerfile in the repository; [int] on the two defaults. *)
Definition world_ready : World :=
  {| machine := machine_ready;
     repo_at := λ _, Samples.repo_node;
     generate_dockerfile := λ repo_path _, ret (repo_path ++ py "/Dockerfile");
     py_int := λ s, if bool_decide (s = py "3000") then Some 3000%Z
                    else if bool_decide (s = py "8000") then Some 8000%Z
                    else None |}.

(** The same world without a network. *)
Definition world_offline : World :=
  {| machine := {| host := Samples.host_offline; which_docker := true |};
     repo_at := repo_at world_ready;
     generate_dockerfile := generate_dockerfile world_ready;
     py_int := py_int world_ready |}.

End MoreSamples.

(** * Properties *)

(** ** Stripping *)

Section Strip.

Context (chars : pystr).

Let inside (c : N) : Prop := char_in c chars = true.

(** [lstrip] removes a run of characters of [chars] and nothing else. *)
Lemma lstrip_decompose (s : pystr) :
  ∃ pre, s = pre ++ lstrip chars s ∧ Forall inside pre.
Proof.
  induction s as [|c s IH]; simpl.
  - exists []. split; [reflexivity | constructor].
  - destruct (char_in c chars) eqn:Hc.
    + destruct IH as (pre & Hs & Hpre). exists (c :: pre). split.
      * simpl. congruence.
      * constructor; assumption.
    + exists []. split; [reflexivity | constructor].
Qed.

(** What is left does not start with a character of [chars]. *)
Lemma lstrip_head (s : pystr) (c : N) :
  head (lstrip chars s) = Some c → char_in c chars = false.
Proof.
  induction s as [|d s IH]; simpl; [discriminate |].
  destruct (char_in d chars) eqn:Hd; [exact IH |].
  simpl. intros [= <-]. exact Hd.
Qed.

Lemma lstrip_fixed (s : pystr) :
  (∀ c, head s = Some c → char_in c chars = false) → lstrip chars s = s.
Proof.
  destruct s as [|c s]; simpl; [reflexivity |].
  intros H. rewrite (H c eq_refl). reflexivity.
Qed.

Lemma rstrip_decompose (s : pystr) :
  ∃ post, s = rstrip chars s ++ post ∧ Forall inside post.
Proof.
  destruct (lstrip_decompose (reverse s)) as (pre & Hs & Hpre).
  exists (reverse pre). split.
  - unfold rstrip. rewrite <- reverse_app, <- Hs, reverse_involutive.
    reflexivity.
  - apply Forall_reverse. exact Hpre.
Qed.

Lemma rstrip_last (s : pystr) (c : N) :
  last (rstrip chars s) = Some c → char_in c chars = false.
Proof.
  unfold rstrip. rewrite last_reverse. apply lstrip_head.
Qed.

Lemma rstrip_fixed (s : pystr) :
  (∀ c, last s = Some c → char_in c chars = false) → rstrip chars s = s.
Proof.
  intros H. unfold rstrip. rewrite lstrip_fixed.
  - apply reverse_involutive.
  - intros c Hc. apply H. rewrite <- (reverse_involutive s), last_reverse.
    exact Hc.
Qed.

(** A stripped string is a fixed point of [strip]. *)
Lemma strip_idempotent (s : pystr) :
  strip chars (strip chars s) = strip chars s.
Proof.
  unfold strip at 1.
  assert (Hl : lstrip chars (strip chars s) = strip chars s).
  { apply lstrip_fixed. intros c Hc.
    destruct (rstrip_decompose (lstrip chars s)) as (post & Hs & _).
    fold (strip chars s) in Hs.
    apply (lstrip_head s). rewrite Hs.
    destruct (strip chars s); [discriminate | exact Hc]. }
  rewrite Hl. apply rstrip_fixed. intros c. apply rstrip_last.
Qed.

Lemma lstrip_Forall (P : N → Prop) (s : pystr) :
  Forall P s → Forall P (lstrip chars s).
Proof.
  destruct (lstrip_decompose s) as (pre & Hs & _).
  intros H. rewrite Hs in H. apply Forall_app in H. tauto.
Qed.

Lemma rstrip_Forall (P : N → Prop) (s : pystr) :
  Forall P s → Forall P (rstrip chars s).
Proof.
  destruct (rstrip_decompose s) as (post & Hs & _).
  intros H. rewrite Hs in H. apply Forall_app in H. tauto.
Qed.

Lemma strip_Forall (P : N → Prop) (s : pystr) :
  Forall P s → Forall P (strip chars s).
Proof. intros H. apply rstrip_Forall, lstrip_Forall, H. Qed.

End Strip.

(** ** Image tags and repository names *)

Section Slug.
Import Replicator Executor.

Lemma char_in_slash (c : N) : char_in c (py "/") = true ↔ c = 47.
Proof.
  change (py "/") with [47]. unfold char_in. simpl.
  rewrite orb_false_r. apply N.eqb_eq.
Qed.

Lemma char_in_dot_git (c : N) :
  char_in c (py ".git") = true ↔ git_suffix_char c.
Proof.
  change (py ".git") with [46; 103; 105; 116].
  unfold char_in, git_suffix_char. simpl.
  rewrite orb_false_r, !orb_true_iff, !N.eqb_eq. tauto.
Qed.

Lemma char_in_dash (c : N) : char_in c (py "-") = true ↔ c = 45.
Proof.
  change (py "-") with [45]. unfold char_in. simpl.
  rewrite orb_false_r. apply N.eqb_eq.
Qed.

(** [strip_suffix] cuts a run of [. g i t] characters followed by a run
    of slashes, and it cuts both runs completely. *)
Lemma strip_suffix_decompose (url : pystr) :
  ∃ tail slashes,
    url = strip_suffix url ++ tail ++ slashes
    ∧ Forall (λ c, c = 47) slashes
    ∧ Forall git_suffix_char tail
    ∧ (∀ c, last (strip_suffix url ++ tail) = Some c → c ≠ 47)
    ∧ (∀ c, last (strip_suffix url) = Some c → ¬ git_suffix_char c).
Proof.
  unfold strip_suffix.
  destruct (rstrip_decompose (py "/") url) as (slashes & Hu & Hsl).
  destruct (rstrip_decompose (py ".git") (rstrip (py "/") url))
    as (tail & Hr & Htl).
  exists tail, slashes. repeat split.
  - rewrite app_assoc, <- Hr. exact Hu.
  - eapply Forall_impl; [exact Hsl |]. intros c. apply char_in_slash.
  - eapply Forall_impl; [exact Htl |]. intros c. apply char_in_dot_git.
  - intros c Hc. rewrite <- Hr in Hc. apply rstrip_last in Hc.
    intros ->. rewrite (proj2 (char_in_slash 47) eq_refl) in Hc.
    discriminate.
  - intros c Hc Hg. apply rstrip_last in Hc.
    apply char_in_dot_git in Hg. congruence.
Qed.

Lemma tag_char_lower (c : N) :
  tag_char c = true → image_tag_char (lower_char c) = true.
Proof.
  unfold tag_char, image_tag_char, lower_char, is_lower, is_upper, is_digit.
  intros H.
  destruct (65 <=? c) eqn:E1, (c <=? 90) eqn:E2; simpl;
    repeat match goal with
           | H : (_ <=? _) = _ |- _ => first [apply N.leb_le in H | apply N.leb_gt in H]
           end;
    repeat match goal with
           | |- context [?a <=? ?b] => destruct (N.leb_spec a b)
           | |- context [?a =? ?b] => destruct (N.eqb_spec a b)
           | H : context [?a <=? ?b] |- _ => destruct (N.leb_spec a b)
           | H : context [?a =? ?b] |- _ => destruct (N.eqb_spec a b)
           end; simpl in *; try reflexivity; try discriminate; lia.
Qed.

Lemma image_tag_char_fixed (c : N) :
  image_tag_char c = true → tag_char c = true ∧ lower_char c = c.
Proof.
  unfold tag_char, image_tag_char, lower_char, is_lower, is_upper, is_digit.
  intros H.
  repeat match goal with
         | |- context [?a <=? ?b] => destruct (N.leb_spec a b)
         | |- context [?a =? ?b] => destruct (N.eqb_spec a b)
         | H : context [?a <=? ?b] |- _ => destruct (N.leb_spec a b)
         | H : context [?a =? ?b] |- _ => destruct (N.eqb_spec a b)
         end; simpl in *; try (split; reflexivity); try discriminate; lia.
Qed.

Lemma lower_sub_chars (name : pystr) :
  Forall (λ c, image_tag_char c = true) (lower (sub_non_tag name)).
Proof.
  unfold lower, sub_non_tag. rewrite List.map_map.
  apply Forall_forall. intros c Hc.
  apply list_elem_of_In, List.in_map_iff in Hc.
  destruct Hc as (d & <- & _).
  destruct (tag_char d) eqn:Hd.
  - apply tag_char_lower, Hd.
  - reflexivity.
Qed.

Lemma sanitize_chars (name : pystr) :
  Forall (λ c, image_tag_char c = true) (sanitize name).
Proof. apply strip_Forall, lower_sub_chars. Qed.

Lemma lower_sub_fixed (s : pystr) :
  Forall (λ c, image_tag_char c = true) s → lower (sub_non_tag s) = s.
Proof.
  induction 1 as [|c s Hc _ IH]; [reflexivity |].
  unfold lower, sub_non_tag in *. simpl.
  destruct (image_tag_char_fixed c Hc) as [-> ->]. f_equal. exact IH.
Qed.

End Slug.

(** The parts of the tag's shape that hold for every URL: at most 128
    characters, the namespace in front, characters of [[a-z0-9._-]] only,
    and no dash in front. *)
Lemma slugify_shape (url : pystr) :
  (length (Replicator._slugify url) ≤ 128)%nat
  ∧ Replicator.NAMESPACE `prefix_of` Replicator._slugify url
  ∧ Forall (λ c, image_tag_char c = true) (Replicator._slugify url)
  ∧ head (Replicator._slugify url) = Some 100.
Proof.
  unfold Replicator._slugify.
  set (name := Replicator.sanitize _).
  assert (Hcut : take 128 (Replicator.NAMESPACE ++ name)
                 = Replicator.NAMESPACE ++ take 114 name).
  { rewrite take_app_ge by (vm_compute; lia). reflexivity. }
  split; [| split; [| split]].
  - rewrite length_take. lia.
  - rewrite Hcut. apply prefix_app_r. reflexivity.
  - apply Forall_take, Forall_app. split.
    + vm_compute. repeat constructor.
    + apply sanitize_chars.
  - rewrite Hcut. reflexivity.
Qed.

(** C6, as stated, fails: slugifying a tag again puts the namespace in
    front a second time. *)
Lemma slugify_twice_differs :
  Replicator._slugify (Replicator._slugify Samples.url_repo)
  = py "devreplicator-devreplicator-user-repo"
  ∧ Replicator._slugify (Replicator._slugify Samples.url_repo)
    ≠ Replicator._slugify Samples.url_repo.
Proof. split; [vm_compute; reflexivity | vm_compute; discriminate]. Qed.

(** C6, amended: the sanitising stage of the derivation (every character
    outside [[a-zA-Z0-9._-]] replaced by a dash, lower case, dashes
    stripped at both ends) is idempotent: applied to its own output it
    returns that output unchanged. *)
Theorem sanitize_idempotent (name : pystr) :
  Replicator.sanitize (Replicator.sanitize name) = Replicator.sanitize name.
Proof.
  unfold Replicator.sanitize at 1.
  rewrite lower_sub_fixed by apply sanitize_chars.
  apply strip_idempotent.
Qed.

(** C7, at the inputs where the code breaks it: a URL whose path is
    stripped to nothing leaves the bare namespace, which ends with its own
    dash, and a cut at 128 characters can fall right after a dash. *)
Theorem slugify_trailing_dash :
  Replicator._slugify Samples.url_git_org = py "devreplicator-"
  ∧ last (Replicator._slugify Samples.url_git_org) = Some 45
  ∧ length (Replicator._slugify Samples.url_long) = 128%nat
  ∧ last (Replicator._slugify Samples.url_long) = Some 45.
Proof. vm_compute. repeat split; reflexivity. Qed.

(** C10: both derivations first drop every trailing slash and then every
    trailing character of the set [. g i t], whether or not these spell
    [.git]; the results depend on the URL through the stripped string
    only; a repository named blog loses its g. *)
Theorem strip_suffix_drops_git_chars :
  (∀ url, ∃ tail slashes,
      url = Replicator.strip_suffix url ++ tail ++ slashes
      ∧ Forall (λ c, c = 47) slashes
      ∧ Forall git_suffix_char tail
      ∧ (∀ c, last (Replicator.strip_suffix url ++ tail) = Some c → c ≠ 47)
      ∧ (∀ c, last (Replicator.strip_suffix url) = Some c
              → ¬ git_suffix_char c))
  ∧ (∀ u1 u2, Replicator.strip_suffix u1 = Replicator.strip_suffix u2 →
       Executor._extract_repo_name u1 = Executor._extract_repo_name u2
       ∧ Replicator._slugify u1 = Replicator._slugify u2)
  ∧ Replicator.strip_suffix Samples.url_blog
    = py "https://github.com/user/blo"
  ∧ Executor._extract_repo_name Samples.url_blog = py "blo"
  ∧ Replicator._slugify Samples.url_blog = py "devreplicator-user-blo".
Proof.
  split; [exact strip_suffix_decompose |].
  split.
  - intros u1 u2 H.
    unfold Executor._extract_repo_name, Replicator._slugify.
    rewrite H. split; reflexivity.
  - vm_compute. repeat split; reflexivity.
Qed.

Lemma strip_suffix_drops_git_chars_witness :
  Executor._extract_repo_name Samples.url_blog
  = Executor._extract_repo_name (py "https://github.com/user/blo.git/")
  ∧ Replicator._slugify Samples.url_blog
    = Replicator._slugify (py "https://github.com/user/blo.git/").
Proof.
  apply (proj1 (proj2 strip_suffix_drops_git_chars)).
  vm_compute. reflexivity.
Defined.

(** ** The clone step *)

Section Clone.
Import Executor.

Context (h : Host) (url : pystr) (dest : option pystr).

Let d : pystr := clone_dest h url dest.
Let rc : Z := returncode h (clone_cmd url d).

(** Every way [clone_repository] can end, with the trace it leaves. *)
Lemma clone_repository_cases :
  let warn := Log Warn (py "Destination already exists " ++ [8212]
                        ++ py " removing: " ++ d) in
  let info := Log Info (py "Cloning " ++ url ++ [32; 8594; 32] ++ d) in
  let done := Log Success (py "Repository cloned: " ++ d) in
  let cleanup := if path_exists h d then [warn; Rmtree d] else [] in
  clone_repository h url dest =
    if which_git h then
      match (if path_exists h d then rmtree_error h d else None) with
      | Some e => (cleanup, Uncaught e)
      | None =>
          if (rc =? 0)%Z
          then (cleanup ++ [info; Run (clone_cmd url d); done], Returned d)
          else (cleanup ++ [info; Run (clone_cmd url d); clone_diagnostic],
                SysExit 1%Z)
      end
    else ([Log Error (py "git is not installed or not found in PATH.")],
          SysExit 1%Z).
Proof.
  subst rc d. unfold clone_repository, check_git.
  set (dst := clone_dest h url dest).
  destruct (which_git h); [| reflexivity].
  destruct (path_exists h dst) eqn:Hex.
  - unfold rmtree. destruct (rmtree_error h dst); [reflexivity |].
    unfold _run. destruct (returncode h (clone_cmd url dst) =? 0)%Z eqn:Hrc.
    + cbv [mbind proc_bind log_warn log_info log_success emit ret app].
      rewrite Hrc. reflexivity.
    + cbv [mbind proc_bind log_warn log_info log_error log_success emit ret
           sys_exit app].
      rewrite Hrc. reflexivity.
  - unfold _run. destruct (returncode h (clone_cmd url dst) =? 0)%Z eqn:Hrc.
    + cbv [mbind proc_bind log_warn log_info log_success emit ret app].
      rewrite Hrc. reflexivity.
    + cbv [mbind proc_bind log_warn log_info log_error log_success emit ret
           sys_exit app].
      rewrite Hrc. reflexivity.
Qed.

End Clone.

(** C9: when the clone command has run and ended with a status other than
    zero, the call ends the process with exit status 1, and the last thing
    it did after the command was to log the error; the destination is
    returned only after a clone that ended with status zero. *)
Theorem clone_failure_exits (h : Executor.Host) (url : pystr)
    (dest : option pystr) (tr : list Executor.event)
    (o : Executor.outcome pystr) :
  Executor.clone_repository h url dest = (tr, o) →
  let d := Executor.clone_dest h url dest in
  let cmd := Executor.clone_cmd url d in
  (Executor.Run cmd ∈ tr → Executor.returncode h cmd ≠ 0%Z →
     o = Executor.SysExit 1%Z
     ∧ ∃ tr0, tr = tr0 ++ [Executor.Run cmd; clone_diagnostic])
  ∧ (∀ p, o = Executor.Returned p →
       p = d ∧ Executor.returncode h cmd = 0%Z ∧ Executor.Run cmd ∈ tr).
Proof.
  intros H d cmd. subst cmd d. rewrite clone_repository_cases in H.
  set (d := Executor.clone_dest h url dest) in *.
  set (cmd := Executor.clone_cmd url d) in *.
  set (warn := Executor.Log Executor.Warn _) in H.
  set (info := Executor.Log Executor.Info _) in H.
  set (done := Executor.Log Executor.Success _) in H.
  cbv zeta in H.
  assert (Hno : ∀ pre : list Executor.event,
             Forall (λ e, e ≠ Executor.Run cmd) pre →
             Executor.Run cmd ∈ pre → False).
  { intros pre Hpre Hin. rewrite Forall_forall in Hpre.
    exact (Hpre _ Hin eq_refl). }
  destruct (Executor.which_git h).
  - destruct (Executor.path_exists h d);
      [destruct (Executor.rmtree_error h d) |].
    + injection H as <- <-. split; [| discriminate]. intros Hin _. exfalso.
      apply (Hno [warn; Executor.Rmtree d]); [| exact Hin].
      subst warn.
      repeat (apply List.Forall_cons; [cbv beta; discriminate |]).
      apply List.Forall_nil.
    + destruct (Executor.returncode h cmd =? 0)%Z eqn:Hrc;
        injection H as <- <-.
      * apply Z.eqb_eq in Hrc. split; [intros _ Hne; contradiction |].
        intros p [= <-]. split; [reflexivity |]. split; [exact Hrc |].
        do 3 apply list_elem_of_further. apply list_elem_of_here.
      * split; [| discriminate]. intros _ _. split; [reflexivity |].
        exists [warn; Executor.Rmtree d; info]. reflexivity.
    + destruct (Executor.returncode h cmd =? 0)%Z eqn:Hrc;
        injection H as <- <-.
      * apply Z.eqb_eq in Hrc. split; [intros _ Hne; contradiction |].
        intros p [= <-]. split; [reflexivity |]. split; [exact Hrc |].
        apply list_elem_of_further, list_elem_of_here.
      * split; [| discriminate]. intros _ _. split; [reflexivity |].
        exists [info]. reflexivity.
  - injection H as <- <-. split; [| discriminate].
    intros Hin _. exfalso.
    apply (Hno [Executor.Log Executor.Error
                  (py "git is not installed or not found in PATH.")]);
      [| exact Hin].
    repeat (apply List.Forall_cons; [cbv beta; discriminate |]).
    apply List.Forall_nil.
Qed.

Lemma clone_failure_exits_witness :
  let d := py "/tmp/devreplicator_blo" in
  let cmd := Executor.clone_cmd Samples.url_blog d in
  snd (Executor.clone_repository Samples.host_offline Samples.url_blog None)
  = Executor.SysExit 1%Z
  ∧ ∃ tr0,
      fst (Executor.clone_repository Samples.host_offline Samples.url_blog
             None)
      = tr0 ++ [Executor.Run cmd; clone_diagnostic].
Proof.
  refine (proj1 (clone_failure_exits Samples.host_offline Samples.url_blog
                   None _ _ _) _ _).
  - apply surjective_pairing.
  - apply list_elem_of_further, list_elem_of_here.
  - discriminate.
Defined.

(** ** Entry-point search *)

Section EntryPoint.
Import Detectors.

Context (r : Repo).

Lemma first_existing_None (candidates : list pystr) :
  first_existing r candidates = None ↔ no_hit (exists_at r) candidates.
Proof.
  unfold no_hit. induction candidates as [|c cs IH]; simpl.
  - split; [constructor | reflexivity].
  - destruct (exists_at r c) eqn:Hc.
    + split; [discriminate |]. intros H. inversion H; congruence.
    + rewrite IH. split.
      * intros H. constructor; assumption.
      * intros H. inversion H; assumption.
Qed.

Lemma first_existing_Some (candidates : list pystr) (c : pystr) :
  first_existing r candidates = Some c
  ↔ first_hit (exists_at r) candidates c.
Proof.
  unfold first_hit. split.
  - induction candidates as [|d cs IH]; simpl; [discriminate |].
    destruct (exists_at r d) eqn:Hd.
    + intros [= <-]. exists [], cs. repeat split; [constructor | exact Hd].
    + intros H. destruct (IH H) as (before & after & -> & Hb & Hc).
      exists (d :: before), after. repeat split; [| exact Hc].
      constructor; assumption.
  - intros (before & after & -> & Hb & Hc).
    induction Hb as [|d before Hd _ IH]; simpl.
    + rewrite Hc. reflexivity.
    + rewrite Hd. exact IH.
Qed.

Lemma first_existing_exists (candidates : list pystr) (c : pystr) :
  first_existing r candidates = Some c → exists_at r c = true.
Proof.
  intros H. apply first_existing_Some in H.
  destruct H as (_ & _ & _ & _ & H). exact H.
Qed.

(** The outcome of the [try] block decides the rest. *)
Lemma find_node_entry_cases :
  exists_at r (py "package.json") = true →
  _find_node_entry r =
    match package_json r with
    | Raise e =>
        if swallowed e then Ok (first_existing r NODE_ENTRY_CANDIDATES)
        else Raise e
    | Ok (PyDict items) =>
        match dict_lookup (py "main") items with
        | Some (PyStr (c :: m)) =>
            if stat_fails r (c :: m) then Raise OSError
            else if exists_at r (c :: m) then Ok (Some (c :: m))
            else Ok (first_existing r NODE_ENTRY_CANDIDATES)
        | Some v =>
            if truthy v then Raise TypeError
            else Ok (first_existing r NODE_ENTRY_CANDIDATES)
        | None => Ok (first_existing r NODE_ENTRY_CANDIDATES)
        end
    | Ok _ => Raise AttributeError
    end.
Proof.
  intros Hpkg. unfold _find_node_entry, node_main_attempt. rewrite Hpkg.
  destruct (package_json r) as [data | e]; [| reflexivity].
  destruct data as [| b | z | f | s | xs | items]; try reflexivity.
  cbn [mbind result_bind py_get].
  destruct (dict_lookup (py "main") items) as [v |]; [| reflexivity].
  destruct v as [| b | z | f | s | xs | kvs];
    cbn [default from_option id truthy path_operand mbind result_bind].
  - reflexivity.
  - destruct b; reflexivity.
  - destruct (z =? 0)%Z; reflexivity.
  - destruct f; reflexivity.
  - destruct s as [|c m]; [reflexivity |].
    unfold exists_checked. destruct (stat_fails r (c :: m)); [reflexivity |].
    cbn [mbind result_bind].
    destruct (exists_at r (c :: m)); reflexivity.
  - destruct xs; reflexivity.
  - destruct kvs; reflexivity.
Qed.

(** The three ways the search can end. *)
Lemma find_node_entry_trichotomy :
  exists_at r (py "package.json") = true →
  _find_node_entry r = Ok (first_existing r NODE_ENTRY_CANDIDATES)
  ∨ (∃ e, _find_node_entry r = Raise e)
  ∨ (∃ items m,
       package_json r = Ok (PyDict items)
       ∧ dict_lookup (py "main") items = Some (PyStr m)
       ∧ m ≠ [] ∧ stat_fails r m = false ∧ exists_at r m = true
       ∧ _find_node_entry r = Ok (Some m)).
Proof.
  intros Hpkg. rewrite (find_node_entry_cases Hpkg).
  destruct (package_json r) as [data | e] eqn:Hdoc.
  - destruct data as [| b | z | f | s | xs | items];
      try (right; left; eexists; reflexivity).
    destruct (dict_lookup (py "main") items) as [v |] eqn:Hmain;
      [| left; reflexivity].
    destruct v as [| b | z | f | s | xs | kvs].
    + left; reflexivity.
    + destruct b; [right; left; eexists; reflexivity | left; reflexivity].
    + cbn [truthy]. destruct (z =? 0)%Z;
        [left; reflexivity | right; left; eexists; reflexivity].
    + destruct f; [right; left; eexists; reflexivity | left; reflexivity].
    + destruct s as [|c m]; [left; reflexivity |].
      destruct (stat_fails r (c :: m)) eqn:Hst;
        [right; left; eexists; reflexivity |].
      destruct (exists_at r (c :: m)) eqn:Hex; [| left; reflexivity].
      right; right. exists items, (c :: m).
      repeat split; try assumption; try reflexivity. discriminate.
    + destruct xs; [left; reflexivity | right; left; eexists; reflexivity].
    + destruct kvs; [left; reflexivity | right; left; eexists; reflexivity].
  - destruct (swallowed e);
      [left; reflexivity | right; left; eexists; reflexivity].
Qed.

End EntryPoint.

(** C4, as stated, fails: the search tests [exists], not [is_file].  With
    a directory named app.py next to a file main.py, main.py is the first
    candidate that exists as a file, and the search answers app.py. *)
Lemma python_entry_takes_directory :
  first_hit (Detectors.is_file_at Samples.repo_app_dir)
    Detectors.PYTHON_ENTRY_CANDIDATES (py "main.py")
  ∧ Detectors._find_python_entry Samples.repo_app_dir = Some (py "app.py")
  ∧ Detectors._find_python_entry Samples.repo_app_dir ≠ Some (py "main.py").
Proof.
  split; [| split; [vm_compute; reflexivity | vm_compute; discriminate]].
  exists [py "app.py"],
         [py "server.py"; py "run.py"; py "manage.py"; py "cli.py"].
  split; [reflexivity |]. split.
  - constructor; [vm_compute; reflexivity | constructor].
  - vm_compute. reflexivity.
Qed.

(** C4, amended: the Python entry-point search returns the first name of
    the ordered list app.py, main.py, server.py, run.py, manage.py, cli.py
    whose path at the root exists, as a file or as anything else, and
    returns none, not an error, when no candidate exists. *)
Theorem python_entry_first_existing (r : Detectors.Repo) :
  (∀ c, Detectors._find_python_entry r = Some c
        ↔ first_hit (Detectors.exists_at r)
            [py "app.py"; py "main.py"; py "server.py"; py "run.py";
             py "manage.py"; py "cli.py"] c)
  ∧ (Detectors._find_python_entry r = None
     ↔ no_hit (Detectors.exists_at r)
         [py "app.py"; py "main.py"; py "server.py"; py "run.py";
          py "manage.py"; py "cli.py"]).
Proof.
  split.
  - intros c. apply first_existing_Some.
  - apply first_existing_None.
Qed.

Lemma python_entry_first_existing_witness :
  Detectors._find_python_entry Samples.repo_both = Some (py "main.py").
Proof.
  apply (proj1 (python_entry_first_existing Samples.repo_both)).
  exists [py "app.py"],
         [py "server.py"; py "run.py"; py "manage.py"; py "cli.py"].
  split; [reflexivity |]. split.
  - constructor; [vm_compute; reflexivity | constructor].
  - vm_compute. reflexivity.
Defined.




(** Where the amended C3 stops: a main of 300 letters makes the existence
    test raise, and the exception leaves the search and the detector; an
    absolute main is returned although it names a file outside the
    repository. *)
Lemma node_entry_main_edge_cases :
  Detectors._find_node_entry Samples.repo_node_long_main = Raise OSError
  ∧ Detectors.detect_project Samples.repo_node_long_main = Raise OSError
  ∧ Detectors._find_node_entry Samples.repo_node_absolute_main
    = Ok (Some (py "/etc/hostname")).
Proof. repeat split; vm_compute; reflexivity. Qed.

(** ** The import scan *)

Section Scan.
Import Detectors.

Lemma ident_tail_chars (s : pystr) :
  Forall (λ d, ident_char d = true) (ident_tail s).
Proof.
  induction s as [|c s IH]; simpl; [constructor |].
  destruct (ident_char c) eqn:Hc; constructor; assumption.
Qed.

Lemma import_match_identifier (line pkg : pystr) :
  import_match line = Some pkg → is_identifier pkg.
Proof.
  unfold import_match.
  destruct (after_keyword (skip_spaces line)) as [[|c rest] |];
    try discriminate.
  destruct (is_space c); [| discriminate].
  destruct (skip_spaces rest) as [|d tail]; [discriminate |].
  destruct (ident_start d) eqn:Hd; [| discriminate].
  intros [= <-]. split; [exact Hd | apply ident_tail_chars].
Qed.

Lemma identifier_no_dot (pkg : pystr) :
  is_identifier pkg → head pkg ≠ Some 46.
Proof.
  destruct pkg as [|c t]; simpl; [contradiction |].
  intros [Hc _] [= ->]. vm_compute in Hc. discriminate.
Qed.

Lemma elem_of_scan_line (found : gset pystr) (line pkg : pystr) :
  pkg ∈ scan_line found line
  ↔ pkg ∈ found
    ∨ (import_match line = Some pkg ∧ pkg ∉ stdlib_prefixes).
Proof.
  unfold scan_line. destruct (import_match line) as [p |].
  - destruct (bool_decide_reflect (p ∈ stdlib_prefixes)) as [Hin | Hout].
    + split; [tauto |]. intros [H | [[= ->] H]]; [exact H | contradiction].
    + rewrite elem_of_union, elem_of_singleton. split.
      * intros [-> | H]; [right; split; [reflexivity | exact Hout] | tauto].
      * intros [H | [[= ->] _]]; tauto.
  - split; [tauto |]. intros [H | [H _]]; [exact H | discriminate].
Qed.

Lemma elem_of_scan_lines (lines : list pystr) (found : gset pystr)
    (pkg : pystr) :
  pkg ∈ foldl scan_line found lines
  ↔ pkg ∈ found
    ∨ ∃ line, line ∈ lines ∧ import_match line = Some pkg
              ∧ pkg ∉ stdlib_prefixes.
Proof.
  revert found. induction lines as [|l ls IH]; intros found; simpl.
  - split; [tauto |]. intros [H | (line & Hin & _)]; [exact H |].
    inversion Hin.
  - rewrite IH, elem_of_scan_line. split.
    + intros [[H | [Hm Hs]] | (line & Hin & Hm & Hs)].
      * tauto.
      * right. exists l. split; [apply list_elem_of_here | tauto].
      * right. exists line. split; [apply list_elem_of_further, Hin | tauto].
    + intros [H | (line & Hin & Hm & Hs)]; [tauto |].
      apply elem_of_cons in Hin as [-> | Hin]; [tauto |].
      right. exists line. tauto.
Qed.

Lemma scan_files_total (py_files : list PyFile) (found : gset pystr) :
  Forall scannable py_files → ∃ res, scan_files found py_files = Ok res.
Proof.
  intros H. revert found.
  induction H as [|f fs Hf _ IH]; intros found; simpl.
  - eexists. reflexivity.
  - unfold scan_file. destruct Hf as [(text & ->) | ->]; apply IH.
Qed.

Lemma elem_of_scan_files (py_files : list PyFile) (found res : gset pystr)
    (pkg : pystr) :
  scan_files found py_files = Ok res →
  pkg ∈ res
  ↔ pkg ∈ found ∨ (imported_in py_files pkg ∧ pkg ∉ stdlib_prefixes).
Proof.
  unfold imported_in. revert found.
  induction py_files as [|f fs IH]; intros found; simpl.
  - intros [= ->]. split; [tauto |].
    intros [H | [(f & _ & _ & Hin & _) _]]; [exact H | inversion Hin].
  - unfold scan_file.
    destruct (py_text f) as [text | e] eqn:Hf.
    + cbn [mbind result_bind]. intros H. rewrite (IH _ H).
      rewrite elem_of_scan_lines. split.
      * intros [[Hin | (line & Hl & Hm & Hs)]
               | [(g & t & line & Hg & Ht & Hl & Hm) Hs]].
        -- tauto.
        -- right. split; [| exact Hs]. exists f, text, line.
           repeat split; try assumption. apply list_elem_of_here.
        -- right. split; [| exact Hs]. exists g, t, line.
           repeat split; try assumption. apply list_elem_of_further, Hg.
      * intros [Hin | [(g & t & line & Hg & Ht & Hl & Hm) Hs]]; [tauto |].
        apply elem_of_cons in Hg as [-> | Hg].
        -- left. right. exists line.
           assert (t = text) as -> by congruence. tauto.
        -- right. split; [| exact Hs]. exists g, t, line. tauto.
    + destruct e; try discriminate.
      cbn [mbind result_bind]. intros H. rewrite (IH _ H). split.
      * intros [Hin | [(g & t & line & Hg & Ht & Hl & Hm) Hs]]; [tauto |].
        right. split; [| exact Hs]. exists g, t, line.
        repeat split; try assumption. apply list_elem_of_further, Hg.
      * intros [Hin | [(g & t & line & Hg & Ht & Hl & Hm) Hs]]; [tauto |].
        apply elem_of_cons in Hg as [-> | Hg]; [congruence |].
        right. split; [| exact Hs]. exists g, t, line. tauto.
Qed.

End Scan.

(** ** Detection *)

Section Detect.
Import Detectors.

Context (r : Repo).

Let pip : bool := exists_at r (py "requirements.txt").
Let poetry : bool := exists_at r (py "pyproject.toml").
Let node : bool := exists_at r (py "package.json").

(** The cascade of [detect_project], rule by rule. *)
Lemma detect_project_cases :
  detect_project r =
    if pip then Ok (pip_result (_find_python_entry r))
    else if poetry then Ok (poetry_result (_find_python_entry r))
    else if node then
      match _find_node_entry r with
      | Ok entry => Ok (node_result entry)
      | Raise e => Raise e
      end
    else match rglob_py r with
         | [] => Ok unknown_result
         | _ :: _ =>
             match _scan_python_imports (rglob_py r) with
             | Ok imports =>
                 Ok (source_result (_find_python_entry r)
                       (elements imports))
             | Raise e => Raise e
             end
         end.
Proof.
  subst pip poetry node. unfold detect_project.
  destruct (exists_at r (py "requirements.txt")); [reflexivity |].
  destruct (exists_at r (py "pyproject.toml")); [reflexivity |].
  destruct (exists_at r (py "package.json")).
  - destruct (_find_node_entry r); reflexivity.
  - destruct (rglob_py r); [reflexivity |].
    destruct (_scan_python_imports _); reflexivity.
Qed.

End Detect.

(** C1: a directory with both requirements.txt and pyproject.toml is a
    python project with requirements.txt as its manifest; the rules are
    tried in the order pip, poetry, node, Python sources, unknown, and the
    first that applies gives the result, whatever the later ones would
    say. *)
Theorem detect_first_match (r : Detectors.Repo) :
  let pip := Detectors.exists_at r (py "requirements.txt") in
  let poetry := Detectors.exists_at r (py "pyproject.toml") in
  let node := Detectors.exists_at r (py "package.json") in
  (pip = true → poetry = true →
     ∃ info, Detectors.detect_project r = Ok info
             ∧ Detectors.project_type info = py "python"
             ∧ Detectors.dep_file info = Some (py "requirements.txt"))
  ∧ (pip = true →
     Detectors.detect_project r
     = Ok (pip_result (Detectors._find_python_entry r)))
  ∧ (pip = false → poetry = true →
     Detectors.detect_project r
     = Ok (poetry_result (Detectors._find_python_entry r)))
  ∧ (pip = false → poetry = false → node = true →
     Detectors.detect_project r
     = (entry ← Detectors._find_node_entry r; Ok (node_result entry)))
  ∧ (pip = false → poetry = false → node = false →
     Detectors.rglob_py r ≠ [] →
     Detectors.detect_project r
     = (imports ← Detectors._scan_python_imports (Detectors.rglob_py r);
        Ok (source_result (Detectors._find_python_entry r)
              (elements imports))))
  ∧ (pip = false → poetry = false → node = false →
     Detectors.rglob_py r = [] →
     Detectors.detect_project r = Ok unknown_result).
Proof.
  intros pip poetry node. subst pip poetry node.
  rewrite detect_project_cases.
  repeat match goal with |- _ ∧ _ => split end.
  - intros -> _. eexists. split; [reflexivity |]. split; reflexivity.
  - intros ->. reflexivity.
  - intros -> ->. reflexivity.
  - intros -> -> ->. destruct (Detectors._find_node_entry r); reflexivity.
  - intros -> -> -> Hpy.
    destruct (Detectors.rglob_py r); [contradiction |].
    destruct (Detectors._scan_python_imports _); reflexivity.
  - intros -> -> -> ->. reflexivity.
Qed.

Lemma detect_first_match_witness :
  ∃ info, Detectors.detect_project Samples.repo_both = Ok info
          ∧ Detectors.project_type info = py "python"
          ∧ Detectors.dep_file info = Some (py "requirements.txt").
Proof.
  apply (proj1 (detect_first_match Samples.repo_both));
    vm_compute; reflexivity.
Defined.

(** C2, at inputs where the code breaks it: a package.json that holds a
    JSON document other than an object, one whose main is a number, and
    one that cannot be read each make [detect_project] raise. *)
Theorem detect_project_raises :
  Detectors.detect_project Samples.repo_node_array = Raise AttributeError
  ∧ Detectors.detect_project Samples.repo_node_number = Raise TypeError
  ∧ Detectors.detect_project Samples.repo_node_unreadable = Raise OSError.
Proof. repeat split; vm_compute; reflexivity. Qed.

(** Where [detect_project] does return: in the pip and poetry rules
    always, and without a package.json whenever the sources can be
    scanned. *)
Lemma detect_project_returns (r : Detectors.Repo) :
  Detectors.exists_at r (py "requirements.txt") = true
  ∨ Detectors.exists_at r (py "pyproject.toml") = true
  ∨ (Detectors.exists_at r (py "package.json") = false
     ∧ Forall scannable (Detectors.rglob_py r)) →
  ∃ info, Detectors.detect_project r = Ok info.
Proof.
  rewrite detect_project_cases. intros H.
  destruct (Detectors.exists_at r (py "requirements.txt"));
    [eexists; reflexivity |].
  destruct (Detectors.exists_at r (py "pyproject.toml"));
    [eexists; reflexivity |].
  destruct H as [H | [H | [-> Hscan]]]; try discriminate.
  destruct (Detectors.rglob_py r) as [|f fs] eqn:Hpy;
    [eexists; reflexivity |].
  destruct (scan_files_total (f :: fs) ∅ Hscan) as (found & Hfound).
  unfold Detectors._scan_python_imports. rewrite Hfound.
  eexists; reflexivity.
Qed.

(** With sources that can be scanned, an exception of [detect_project]
    is one the [try] of [_find_node_entry] let through. *)
Lemma detect_project_raise_origin (r : Detectors.Repo) (e : exn) :
  Forall scannable (Detectors.rglob_py r) →
  Detectors.detect_project r = Raise e →
  Detectors.exists_at r (py "package.json") = true
  ∧ Detectors._find_node_entry r = Raise e
  ∧ Detectors.swallowed e = false.
Proof.
  intros Hscan. rewrite detect_project_cases.
  destruct (Detectors.exists_at r (py "requirements.txt"));
    [discriminate |].
  destruct (Detectors.exists_at r (py "pyproject.toml")); [discriminate |].
  destruct (Detectors.exists_at r (py "package.json")) eqn:Hpkg.
  - destruct (Detectors._find_node_entry r) as [entry | e'] eqn:Hentry;
      [discriminate |].
    intros [= ->]. split; [reflexivity |]. split; [reflexivity |].
    rewrite (find_node_entry_cases r Hpkg) in Hentry.
    destruct (Detectors.package_json r) as [data | e0].
    + destruct data as [| b | z | f | s | xs | items];
        try (injection Hentry as <-; reflexivity).
      destruct (Detectors.dict_lookup (py "main") items) as [v |];
        [| discriminate].
      destruct v as [| b | z | f | s | xs | kvs];
        try (destruct (Detectors.truthy _); [| discriminate];
             injection Hentry as <-; reflexivity).
      destruct s as [|c m].
      * discriminate.
      * destruct (Detectors.stat_fails r (c :: m));
          [injection Hentry as <-; reflexivity |].
        destruct (Detectors.exists_at r (c :: m)); discriminate.
    + destruct (Detectors.swallowed e0) eqn:Hsw; [discriminate |].
      injection Hentry as <-. exact Hsw.
  - destruct (Detectors.rglob_py r) as [|f fs]; [discriminate |].
    destruct (scan_files_total (f :: fs) ∅ Hscan) as (found & Hfound).
    unfold Detectors._scan_python_imports. rewrite Hfound. discriminate.
Qed.

(** C8: in a returned [ProjectInfo] the base image is unset exactly for
    the unknown variant; it is python:3.11-slim for python, with or
    without a manifest, and for poetry, and node:18-slim for node. *)
Theorem base_image_by_variant (r : Detectors.Repo)
    (info : Detectors.ProjectInfo) :
  Detectors.detect_project r = Ok info →
  (Detectors.base_image info = None
   ↔ Detectors.project_type info = py "unknown")
  ∧ (Detectors.project_type info = py "python"
     ∨ Detectors.project_type info = py "poetry" →
     Detectors.base_image info = Some (py "python:3.11-slim"))
  ∧ (Detectors.project_type info = py "node" →
     Detectors.base_image info = Some (py "node:18-slim")).
Proof.
  rewrite detect_project_cases.
  destruct (Detectors.exists_at r (py "requirements.txt"));
    [| destruct (Detectors.exists_at r (py "pyproject.toml"));
       [| destruct (Detectors.exists_at r (py "package.json"));
          [destruct (Detectors._find_node_entry r); [| discriminate]
          | destruct (Detectors.rglob_py r);
            [| destruct (Detectors._scan_python_imports _);
               [| discriminate]]]]];
    intros [= <-]; cbn [Detectors.base_image Detectors.project_type
                        pip_result poetry_result node_result source_result
                        unknown_result];
    (split; [split; intros H; first [discriminate H | reflexivity]
            | split; [intros [H | H] | intros H];
              first [reflexivity | discriminate H]]).
Qed.

Lemma base_image_by_variant_witness :
  Detectors.base_image (node_result (Some (py "src/index.js")))
  = Some (py "node:18-slim").
Proof.
  refine (proj2 (proj2 (base_image_by_variant Samples.repo_node _ _)) _).
  - vm_compute. reflexivity.
  - reflexivity.
Defined.


(** C5: over source files that can be read (or are skipped on [OSError])
    the import scan returns a set; its elements are exactly the tokens
    some line imports that are not in the denylist; every element has the
    shape of an identifier, so none begins with a dot, and none is in the
    denylist; the set lists each module once, in however many files it
    is imported. *)
Theorem scan_imports_set (py_files : list Detectors.PyFile) :
  Forall scannable py_files →
  ∃ found,
    Detectors._scan_python_imports py_files = Ok found
    ∧ (∀ pkg, pkg ∈ found
              ↔ imported_in py_files pkg
                ∧ pkg ∉ Detectors.stdlib_prefixes)
    ∧ (∀ pkg, pkg ∈ found →
         is_identifier pkg ∧ head pkg ≠ Some 46
         ∧ pkg ∉ Detectors.stdlib_prefixes)
    ∧ NoDup (elements found).
Proof.
  intros Hfiles.
  destruct (scan_files_total py_files ∅ Hfiles) as (found & Hscan).
  exists found. split; [exact Hscan |].
  assert (Hiff : ∀ pkg, pkg ∈ found
                        ↔ imported_in py_files pkg
                          ∧ pkg ∉ Detectors.stdlib_prefixes).
  { intros pkg. rewrite (elem_of_scan_files _ _ _ pkg Hscan).
    split; [intros [H | H]; [| exact H] | tauto].
    exfalso. revert H. apply not_elem_of_empty. }
  split; [exact Hiff |]. split.
  - intros pkg Hin. apply Hiff in Hin as [(f & t & line & _ & _ & _ & Hm) Hs].
    pose proof (import_match_identifier _ _ Hm) as Hid.
    split; [exact Hid |]. split; [apply identifier_no_dot, Hid | exact Hs].
  - apply NoDup_elements.
Qed.

Lemma scan_imports_set_witness :
  ∃ found,
    Detectors._scan_python_imports [Samples.main_py; Samples.worker_py]
    = Ok found
    ∧ (∀ pkg, pkg ∈ found
              ↔ imported_in [Samples.main_py; Samples.worker_py] pkg
                ∧ pkg ∉ Detectors.stdlib_prefixes)
    ∧ (∀ pkg, pkg ∈ found →
         is_identifier pkg ∧ head pkg ≠ Some 46
         ∧ pkg ∉ Detectors.stdlib_prefixes)
    ∧ NoDup (elements found).
Proof.
  apply scan_imports_set.
  repeat (apply List.Forall_cons; [left; eexists; reflexivity |]).
  apply List.Forall_nil.
Defined.

(** Two files that both import requests: the set holds it once, next to
    flask; os and json are in the denylist and the relative import is no
    match. *)
Example scan_shared_import :
  (elements <$> Detectors._scan_python_imports
                  [Samples.main_py; Samples.worker_py])
  = Ok [py "requests"; py "flask"].
Proof. vm_compute. reflexivity. Qed.

(** ** End to end *)

Example detect_empty_directory :
  Detectors.detect_project Samples.repo_empty = Ok unknown_result.
Proof. reflexivity. Qed.

Example detect_sources_only :
  Detectors.detect_project Samples.repo_sources
  = Ok (source_result (Some (py "main.py")) [py "requests"; py "flask"]).
Proof. vm_compute. reflexivity. Qed.

Example detect_node_main :
  Detectors.detect_project Samples.repo_node
  = Ok (node_result (Some (py "src/index.js"))).
Proof. vm_compute. reflexivity. Qed.

Example clone_online :
  snd (Executor.clone_repository Samples.host_online Samples.url_blog None)
  = Executor.Returned (py "/tmp/devreplicator_blo").
Proof. vm_compute. reflexivity. Qed.

(** * Further properties of the code *)

(** ** URLs that differ in their tail only *)

Lemma lstrip_app_inside (chars pre s : pystr) :
  Forall (λ c, char_in c chars = true) pre →
  lstrip chars (pre ++ s) = lstrip chars s.
Proof.
  induction 1 as [|c pre Hc _ IH]; simpl; [reflexivity |].
  rewrite Hc. exact IH.
Qed.

Lemma rstrip_app_inside (chars s post : pystr) :
  Forall (λ c, char_in c chars = true) post →
  rstrip chars (s ++ post) = rstrip chars s.
Proof.
  intros H. unfold rstrip. rewrite reverse_app, lstrip_app_inside.
  - reflexivity.
  - apply Forall_reverse, H.
Qed.

(** Any number of slashes at the end of a URL changes neither the
    repository name nor the image tag. *)
Theorem trailing_slashes_ignored (url : pystr) (n : nat) :
  Executor._extract_repo_name (url ++ replicate n 47)
  = Executor._extract_repo_name url
  ∧ Replicator._slugify (url ++ replicate n 47) = Replicator._slugify url.
Proof.
  assert (H : Replicator.strip_suffix (url ++ replicate n 47)
              = Replicator.strip_suffix url).
  { unfold Replicator.strip_suffix. rewrite rstrip_app_inside; [reflexivity |].
    apply Forall_replicate. reflexivity. }
  unfold Executor._extract_repo_name, Replicator._slugify.
  rewrite H. split; reflexivity.
Qed.

(** A URL that does not end with a slash and the same URL with [.git]
    appended give the same repository name and the same image tag. *)
Theorem dot_git_suffix_ignored (url : pystr) :
  last url ≠ Some 47 →
  Executor._extract_repo_name (url ++ py ".git")
  = Executor._extract_repo_name url
  ∧ Replicator._slugify (url ++ py ".git") = Replicator._slugify url.
Proof.
  intros Hlast.
  assert (H : Replicator.strip_suffix (url ++ py ".git")
              = Replicator.strip_suffix url).
  { unfold Replicator.strip_suffix.
    rewrite (rstrip_fixed (py "/") (url ++ py ".git")).
    - rewrite (rstrip_fixed (py "/") url).
      + apply rstrip_app_inside. vm_compute. repeat constructor.
      + intros c Hc. destruct (char_in c (py "/")) eqn:E; [| reflexivity].
        apply char_in_slash in E. congruence.
    - intros c Hc. change (py ".git") with ([46; 103; 105] ++ [116]) in Hc.
      rewrite app_assoc, last_snoc in Hc. injection Hc as <-. reflexivity. }
  unfold Executor._extract_repo_name, Replicator._slugify.
  rewrite H. split; reflexivity.
Qed.

Lemma dot_git_suffix_ignored_witness :
  Executor._extract_repo_name (py "git@github.com:octo/hello.git")
  = Executor._extract_repo_name (py "git@github.com:octo/hello")
  ∧ Replicator._slugify (py "git@github.com:octo/hello.git")
    = Replicator._slugify (py "git@github.com:octo/hello").
Proof.
  apply (dot_git_suffix_ignored (py "git@github.com:octo/hello")).
  vm_compute. discriminate.
Defined.

(** ** The repository name and the default destination *)

Lemma split_go_slash_free (s cur : pystr) :
  47 ∉ cur → Forall (λ piece, 47 ∉ piece) (split_go (py "/") O cur s).
Proof.
  change (py "/") with [47].
  revert cur. induction s as [|c s IH]; intros cur Hcur;
    cbn [split_go startswith length Nat.pred].
  - constructor; [| constructor]. rewrite elem_of_reverse. exact Hcur.
  - destruct (47 =? c) eqn:E; cbn [andb].
    + constructor.
      * rewrite elem_of_reverse. exact Hcur.
      * apply IH. apply not_elem_of_nil.
    + apply IH. apply N.eqb_neq in E. intros H.
      apply elem_of_cons in H as [H | H]; [congruence | contradiction].
Qed.

Lemma split_go_nonempty (sep : pystr) (skip : nat) (cur s : pystr) :
  split_go sep skip cur s ≠ [].
Proof.
  revert skip cur. induction s as [|c s IH]; intros skip cur; simpl.
  - discriminate.
  - destruct skip; [| apply IH].
    destruct (startswith sep (c :: s)); [discriminate | apply IH].
Qed.

Lemma last_piece_elem (sep s : pystr) :
  last_piece (split sep s) ∈ split sep s.
Proof.
  unfold last_piece, split.
  pose proof (split_go_nonempty sep O [] s) as Hne.
  destruct (split_go sep O [] s) as [|p ps] eqn:E; [contradiction |].
  apply list_elem_of_In.
  destruct (List.exists_last (l := p :: ps) ltac:(discriminate))
    as (init & x & Hx).
  rewrite Hx, List.last_last. apply List.in_or_app. right. left. reflexivity.
Qed.

Lemma repo_name_shape (url : pystr) :
  Executor._extract_repo_name url ≠ []
  ∧ (47 ∉ Executor._extract_repo_name url).
Proof.
  unfold Executor._extract_repo_name.
  set (u := Replicator.strip_suffix url).
  pose proof (last_piece_elem (py "/") u) as Hin.
  pose proof (split_go_slash_free u [] (not_elem_of_nil 47)) as Hfree.
  fold (split (py "/") u) in Hfree. rewrite Forall_forall in Hfree.
  specialize (Hfree _ Hin).
  destruct (last_piece (split (py "/") u)) as [|c name].
  - split; [discriminate |]. vm_compute.
    intros H. repeat (apply elem_of_cons in H as [H | H]; [discriminate |]).
    inversion H.
  - split; [discriminate | exact Hfree].
Qed.

(** The repository name is never empty and holds no slash; so, without
    a destination of the caller's, the clone goes to one new entry of the
    temporary directory, named after the repository. *)
Theorem default_destination_in_tempdir (h : Executor.Host) (url : pystr) :
  let entry := py "devreplicator_" ++ Executor._extract_repo_name url in
  Executor._extract_repo_name url ≠ []
  ∧ (47 ∉ Executor._extract_repo_name url)
  ∧ (47 ∉ entry)
  ∧ (length entry > 14)%nat
  ∧ Executor.clone_dest h url None
    = match last (Executor.gettempdir h) with
      | Some 47 | None => Executor.gettempdir h ++ entry
      | Some _ => Executor.gettempdir h ++ py "/" ++ entry
      end.
Proof.
  intros entry.
  destruct (repo_name_shape url) as [Hne Hfree].
  assert (Hentry : 47 ∉ entry).
  { subst entry. rewrite elem_of_app. intros [H | H]; [| contradiction].
    vm_compute in H.
    repeat (apply elem_of_cons in H as [H | H]; [discriminate |]).
    inversion H. }
  split; [exact Hne |]. split; [exact Hfree |].
  split; [exact Hentry |]. split.
  - subst entry. rewrite length_app.
    change (length (py "devreplicator_")) with 14%nat.
    destruct (Executor._extract_repo_name url); [contradiction |].
    cbn [length]. lia.
  - unfold Executor.clone_dest, Executor.path_join. fold entry.
    destruct entry as [|c e] eqn:E.
    + exfalso. subst entry. discriminate.
    + replace (startswith (py "/") (c :: e)) with false.
      * destruct (Executor.gettempdir h) as [|t ts] using rev_ind;
          [reflexivity |].
        rewrite List.last_last, last_snoc.
        destruct (N.eq_dec t 47) as [-> | Hn]; [reflexivity |].
        destruct t as [|p]; [reflexivity |].
        repeat (destruct p as [p | p |]; try reflexivity); congruence.
      * change (py "/") with [47]. cbn [startswith].
        destruct (47 =? c) eqn:Ec; [| reflexivity].
        apply N.eqb_eq in Ec. subst c. exfalso. apply Hentry.
        apply list_elem_of_here.
Qed.

Lemma default_destination_in_tempdir_witness :
  Executor.clone_dest Samples.host_online Samples.url_blog None
  = py "/tmp/devreplicator_blo".
Proof.
  rewrite (proj2 (proj2 (proj2 (proj2
             (default_destination_in_tempdir Samples.host_online
                Samples.url_blog))))).
  reflexivity.
Defined.

(** ** The URL check *)

Lemma startswith_drop (p s : pystr) :
  startswith p s = true → s = p ++ drop (length p) s.
Proof.
  revert s. induction p as [|a p IH]; intros s; simpl; [reflexivity |].
  destruct s as [|b s]; [discriminate |].
  intros H. apply andb_true_iff in H as [Hab Hp].
  apply N.eqb_eq in Hab. subst b. f_equal. apply IH, Hp.
Qed.

Lemma owner_slash_repo_spec (s : pystr) (seen : bool) :
  Orchestrator.owner_slash_repo seen s = true
  ↔ ∃ a c rest,
      s = a ++ 47 :: c :: rest ∧ (10 ∉ a) ∧ c ≠ 10
      ∧ (seen = false → a ≠ []).
Proof.
  split.
  - revert seen. induction s as [|c0 s IH]; intros seen;
      cbn [Orchestrator.owner_slash_repo]; [discriminate |].
    destruct (N.eqb_spec c0 10) as [-> | Hc0]; [discriminate |].
    destruct (seen && (c0 =? 47)
              && match s with d :: _ => negb (d =? 10) | [] => false end)
      eqn:Hhit.
    + intros _. apply andb_true_iff in Hhit as [Hhit Hnext].
      apply andb_true_iff in Hhit as [-> Hslash].
      apply N.eqb_eq in Hslash. subst c0.
      destruct s as [|d s]; [discriminate |].
      apply negb_true_iff, N.eqb_neq in Hnext.
      exists [], d, s. repeat split; [apply not_elem_of_nil | exact Hnext |].
      discriminate.
    + intros H. destruct (IH _ H) as (a & c & rest & -> & Ha & Hc & _).
      exists (c0 :: a), c, rest. repeat split; [| exact Hc | discriminate].
      intros Hin. apply elem_of_cons in Hin as [Hin | Hin];
        [congruence | contradiction].
  - intros (a & c & rest & -> & Ha & Hc & Hseen).
    revert seen Hseen. induction a as [|a0 a IH]; intros seen Hseen.
    + destruct seen; [| exfalso; apply Hseen; reflexivity].
      cbn [app Orchestrator.owner_slash_repo andb].
      change (47 =? 10) with false. change (47 =? 47) with true.
      apply N.eqb_neq in Hc. rewrite Hc. reflexivity.
    + cbn [app Orchestrator.owner_slash_repo].
      assert (Ha0 : a0 ≠ 10).
      { intros ->. apply Ha, list_elem_of_here. }
      apply N.eqb_neq in Ha0. rewrite Ha0.
      destruct (seen && (a0 =? 47) && _); [reflexivity |].
      apply IH; [| discriminate].
      intros Hin. apply Ha, list_elem_of_further, Hin.
Qed.

Lemma host_then_owner (r : pystr) :
  startswith (py "github.com/") r
  && Orchestrator.owner_slash_repo false (drop 11 r) = true →
  ∃ owner c tail,
    r = py "github.com/" ++ owner ++ 47 :: c :: tail
    ∧ owner ≠ [] ∧ (10 ∉ owner) ∧ c ≠ 10.
Proof.
  intros H. apply andb_true_iff in H as [Hhost Htail].
  apply owner_slash_repo_spec in Htail
    as (owner & c & tail & Htail & Hnl & Hc & Howner).
  apply startswith_drop in Hhost.
  change (length (py "github.com/")) with 11%nat in Hhost.
  rewrite Htail in Hhost.
  exists owner, c, tail. repeat split; auto.
Qed.

Lemma valid_after_host (tail : pystr) :
  Orchestrator._valid_github_url (py "https://github.com/" ++ tail)
  = Orchestrator.owner_slash_repo false tail
  ∧ Orchestrator._valid_github_url (py "http://github.com/" ++ tail)
    = Orchestrator.owner_slash_repo false tail
  ∧ Orchestrator._valid_github_url (py "https://www.github.com/" ++ tail)
    = Orchestrator.owner_slash_repo false tail
  ∧ Orchestrator._valid_github_url (py "http://www.github.com/" ++ tail)
    = Orchestrator.owner_slash_repo false tail.
Proof. repeat split; reflexivity. Qed.

(** [_valid_github_url] accepts exactly the strings that begin with
    http:// or https://, an optional www., github.com/, an owner of at
    least one character, a slash and one more character, with no line
    feed from the owner on; what follows is not looked at. *)
Theorem valid_github_url_shape (url : pystr) :
  Orchestrator._valid_github_url url = true ↔ github_url_shape url.
Proof.
  unfold github_url_shape. split.
  - unfold Orchestrator._valid_github_url.
    assert (Hgo : ∀ scheme rest,
      (scheme = py "http" ∨ scheme = py "https") →
      url = scheme ++ py "://" ++ rest →
      startswith (py "github.com/")
        (if startswith (py "www.") rest then drop 4 rest else rest)
      && Orchestrator.owner_slash_repo false
           (drop 11 (if startswith (py "www.") rest then drop 4 rest
                     else rest)) = true →
      ∃ scheme www owner c rest,
        (scheme = py "http" ∨ scheme = py "https")
        ∧ (www = [] ∨ www = py "www.")
        ∧ url = scheme ++ py "://" ++ www ++ py "github.com/"
                ++ owner ++ 47 :: c :: rest
        ∧ owner ≠ [] ∧ (10 ∉ owner) ∧ c ≠ 10).
    { intros scheme rest Hscheme Hurl.
      destruct (startswith (py "www.") rest) eqn:Hwww; intros H;
        apply host_then_owner in H
          as (owner & c & tail & Hrest & Howner & Hnl & Hc).
      - apply startswith_drop in Hwww.
        change (length (py "www.")) with 4%nat in Hwww.
        exists scheme, (py "www."), owner, c, tail.
        repeat split; auto. rewrite Hurl, Hwww, Hrest. reflexivity.
      - exists scheme, [], owner, c, tail.
        repeat split; auto. rewrite Hurl, Hrest. reflexivity. }
    destruct (startswith (py "https://") url) eqn:Hs.
    + apply startswith_drop in Hs.
      change (length (py "https://")) with 8%nat in Hs.
      apply (Hgo (py "https")); [right; reflexivity | exact Hs].
    + destruct (startswith (py "http://") url) eqn:Hp; [| discriminate].
      apply startswith_drop in Hp.
      change (length (py "http://")) with 7%nat in Hp.
      apply (Hgo (py "http")); [left; reflexivity | exact Hp].
  - intros (scheme & www & owner & c & rest
            & Hscheme & Hwww & -> & Howner & Hnl & Hc).
    assert (Htail : Orchestrator.owner_slash_repo false
                      (owner ++ 47 :: c :: rest) = true).
    { apply owner_slash_repo_spec. exists owner, c, rest. auto. }
    destruct (valid_after_host (owner ++ 47 :: c :: rest))
      as (H1 & H2 & H3 & H4).
    destruct Hscheme as [-> | ->], Hwww as [-> | ->].
    + exact (eq_trans H2 Htail).
    + exact (eq_trans H4 Htail).
    + exact (eq_trans H1 Htail).
    + exact (eq_trans H3 Htail).
Qed.

Lemma valid_github_url_shape_witness :
  github_url_shape (py "http://www.github.com/octo/hello").
Proof.
  apply (proj1 (valid_github_url_shape _)). vm_compute. reflexivity.
Defined.

(** ** What the detector reports *)

Lemma first_existing_elem (r : Detectors.Repo) (candidates : list pystr)
    (c : pystr) :
  Detectors.first_existing r candidates = Some c → c ∈ candidates.
Proof.
  intros H. apply first_existing_Some in H.
  destruct H as (before & after & -> & _ & _).
  apply elem_of_app. right. apply list_elem_of_here.
Qed.

Lemma python_start_entry (r : Detectors.Repo) :
  Detectors.python_start (Detectors._find_python_entry r)
  = (λ e, py "python " ++ e) <$> Detectors._find_python_entry r.
Proof.
  unfold Detectors._find_python_entry.
  destruct (Detectors.first_existing r Detectors.PYTHON_ENTRY_CANDIDATES)
    as [e |] eqn:He; [| reflexivity].
  apply first_existing_elem in He.
  destruct e as [|c e]; [| reflexivity].
  exfalso. vm_compute in He.
  repeat (apply elem_of_cons in He as [He | He]; [discriminate |]).
  inversion He.
Qed.

(** The start command follows from the variant and the entry point: npm
    start for node, python and the entry point for python and poetry (one
    of the six candidates), and none when these have no entry point or
    the stack is unknown. *)
Theorem start_command_by_variant (r : Detectors.Repo)
    (info : Detectors.ProjectInfo) :
  Detectors.detect_project r = Ok info →
  (Detectors.project_type info = py "node" →
     Detectors.start_command info = Some (py "npm start"))
  ∧ (Detectors.project_type info = py "unknown" →
     Detectors.start_command info = None
     ∧ Detectors.entry_point info = None)
  ∧ (Detectors.project_type info = py "python"
     ∨ Detectors.project_type info = py "poetry" →
     Detectors.start_command info
     = (λ e, py "python " ++ e) <$> Detectors.entry_point info
     ∧ ∀ e, Detectors.entry_point info = Some e →
            e ∈ Detectors.PYTHON_ENTRY_CANDIDATES).
Proof.
  rewrite detect_project_cases.
  pose proof (python_start_entry r) as Hstart.
  assert (Hcand : ∀ e, Detectors._find_python_entry r = Some e →
                       e ∈ Detectors.PYTHON_ENTRY_CANDIDATES).
  { intros e. apply first_existing_elem. }
  destruct (Detectors.exists_at r (py "requirements.txt"));
    [| destruct (Detectors.exists_at r (py "pyproject.toml"));
       [| destruct (Detectors.exists_at r (py "package.json"));
          [destruct (Detectors._find_node_entry r); [| discriminate]
          | destruct (Detectors.rglob_py r);
            [| destruct (Detectors._scan_python_imports _);
               [| discriminate]]]]];
    intros [= <-];
    cbn [Detectors.start_command Detectors.project_type
         Detectors.entry_point pip_result poetry_result node_result
         source_result unknown_result];
    (split; [intros H; first [discriminate H | reflexivity]
            | split; [intros H; first [discriminate H | split; reflexivity]
                     | intros [H | H];
                       first [discriminate H | split; assumption]]]).
Qed.

Lemma start_command_by_variant_witness :
  Detectors.start_command (pip_result (Some (py "main.py")))
  = Some (py "python main.py").
Proof.
  refine (proj1 (proj2 (proj2 (start_command_by_variant Samples.repo_both
                                 _ _)) (or_introl _))).
  - vm_compute. reflexivity.
  - reflexivity.
Defined.

(** The manifest reported is the file that triggered the rule, so it
    exists; none is reported exactly when none of the three manifests
    exists, and only then are imports scanned. *)
Theorem dep_file_is_trigger (r : Detectors.Repo)
    (info : Detectors.ProjectInfo) :
  Detectors.detect_project r = Ok info →
  (Detectors.dep_file info = None
   ↔ Detectors.exists_at r (py "requirements.txt") = false
     ∧ Detectors.exists_at r (py "pyproject.toml") = false
     ∧ Detectors.exists_at r (py "package.json") = false)
  ∧ (∀ d, Detectors.dep_file info = Some d →
       Detectors.exists_at r d = true
       ∧ d ∈ [py "requirements.txt"; py "pyproject.toml";
              py "package.json"])
  ∧ (Detectors.scanned_imports info ≠ [] →
       Detectors.dep_file info = None
       ∧ Detectors.project_type info = py "python").
Proof.
  rewrite detect_project_cases.
  destruct (Detectors.exists_at r (py "requirements.txt")) eqn:H1;
    [| destruct (Detectors.exists_at r (py "pyproject.toml")) eqn:H2;
       [| destruct (Detectors.exists_at r (py "package.json")) eqn:H3;
          [destruct (Detectors._find_node_entry r); [| discriminate]
          | destruct (Detectors.rglob_py r);
            [| destruct (Detectors._scan_python_imports _);
               [| discriminate]]]]];
    intros [= <-];
    cbn [Detectors.dep_file Detectors.project_type
         Detectors.scanned_imports pip_result poetry_result node_result
         source_result unknown_result];
    (split; [split; [intros H; first [discriminate H | auto]
                    | intros (Ha & Hb & Hc);
                      first [discriminate | reflexivity]]
            | split; [intros d [= <-] || (intros d H; discriminate H)
                     | intros H; first [contradiction | split; reflexivity]]]).
  - split; [exact H1 | apply list_elem_of_here].
  - split; [exact H2 | apply list_elem_of_further, list_elem_of_here].
  - split; [exact H3 |]. do 2 apply list_elem_of_further.
    apply list_elem_of_here.
Qed.

Lemma dep_file_is_trigger_witness :
  Detectors.exists_at Samples.repo_node (py "package.json") = true
  ∧ py "package.json" ∈ [py "requirements.txt"; py "pyproject.toml";
                         py "package.json"].
Proof.
  refine (proj1 (proj2 (dep_file_is_trigger Samples.repo_node
                          (node_result (Some (py "src/index.js"))) _))
            (py "package.json") _).
  - vm_compute. reflexivity.
  - reflexivity.
Defined.

(** An entry point the detector reports passed the test
    [(root / entry).exists()] and has one of two origins: it is a name of
    the candidate list of its ecosystem, or, for a Node project only, the
    non-empty string main of package.json.  The test is on the path
    [root / entry]: for a candidate that is a path below the root, for a
    main that is absolute or climbs with [..] it is a path outside the
    root, and such a main is reported all the same. *)
Theorem entry_point_exists (r : Detectors.Repo)
    (info : Detectors.ProjectInfo) (e : pystr) :
  Detectors.detect_project r = Ok info →
  Detectors.entry_point info = Some e →
  Detectors.exists_at r e = true
  ∧ (Detectors.project_type info ≠ py "node" →
     e ∈ Detectors.PYTHON_ENTRY_CANDIDATES)
  ∧ (Detectors.project_type info = py "node" →
     e ∈ Detectors.NODE_ENTRY_CANDIDATES
     ∨ ∃ items, Detectors.package_json r = Ok (Detectors.PyDict items)
                ∧ Detectors.dict_lookup (py "main") items
                  = Some (Detectors.PyStr e)
                ∧ e ≠ []
                ∧ Detectors.exists_checked r e = Ok true).
Proof.
  rewrite detect_project_cases.
  assert (Hpy : ∀ t, t ≠ py "node" →
                Detectors._find_python_entry r = Some e →
                Detectors.exists_at r e = true
                ∧ (t ≠ py "node" → e ∈ Detectors.PYTHON_ENTRY_CANDIDATES)
                ∧ (t = py "node" →
                   e ∈ Detectors.NODE_ENTRY_CANDIDATES
                   ∨ ∃ items,
                       Detectors.package_json r = Ok (Detectors.PyDict items)
                       ∧ Detectors.dict_lookup (py "main") items
                         = Some (Detectors.PyStr e)
                       ∧ e ≠ []
                       ∧ Detectors.exists_checked r e = Ok true)).
  { intros t Ht He. split; [| split].
    - apply (first_existing_exists r Detectors.PYTHON_ENTRY_CANDIDATES).
      exact He.
    - intros _.
      apply (first_existing_elem r Detectors.PYTHON_ENTRY_CANDIDATES).
      exact He.
    - intros Hn. contradiction. }
  destruct (Detectors.exists_at r (py "requirements.txt"));
    [intros [= <-]; apply Hpy; discriminate |].
  destruct (Detectors.exists_at r (py "pyproject.toml"));
    [intros [= <-]; apply Hpy; discriminate |].
  destruct (Detectors.exists_at r (py "package.json")) eqn:Hpkg.
  - destruct (find_node_entry_trichotomy r Hpkg)
      as [H | [(e' & H) | (items & m & Hdoc & Hmain & Hm & Hst & Hex & H)]];
      rewrite H.
    + intros [= <-] He. split; [| split].
      * apply (first_existing_exists r Detectors.NODE_ENTRY_CANDIDATES).
        exact He.
      * intros Hn. exfalso. apply Hn. reflexivity.
      * intros _. left.
        apply (first_existing_elem r Detectors.NODE_ENTRY_CANDIDATES).
        exact He.
    + discriminate.
    + intros [= <-] He. injection He as <-. split; [exact Hex | split].
      * intros Hn. exfalso. apply Hn. reflexivity.
      * intros _. right. exists items.
        split; [exact Hdoc | split; [exact Hmain | split; [exact Hm |]]].
        unfold Detectors.exists_checked. rewrite Hst, Hex. reflexivity.
  - destruct (Detectors.rglob_py r);
      [intros [= <-]; discriminate |].
    destruct (Detectors._scan_python_imports _); [| discriminate].
    intros [= <-]. apply Hpy. discriminate.
Qed.

Lemma entry_point_exists_witness :
  Detectors.exists_at Samples.repo_node_absolute_main (py "/etc/hostname")
  = true
  ∧ (py "/etc/hostname" ∈ Detectors.NODE_ENTRY_CANDIDATES
     ∨ ∃ items,
         Detectors.package_json Samples.repo_node_absolute_main
         = Ok (Detectors.PyDict items)
         ∧ Detectors.dict_lookup (py "main") items
           = Some (Detectors.PyStr (py "/etc/hostname"))
         ∧ py "/etc/hostname" ≠ []
         ∧ Detectors.exists_checked Samples.repo_node_absolute_main
             (py "/etc/hostname") = Ok true).
Proof.
  pose proof (entry_point_exists Samples.repo_node_absolute_main
                (node_result (Some (py "/etc/hostname")))
                (py "/etc/hostname")) as H.
  destruct H as (Hex & _ & Hnode).
  - vm_compute. reflexivity.
  - reflexivity.
  - split; [exact Hex | apply Hnode; reflexivity].
Defined.

(** ** More on the import scan *)

(** The scan depends on which files there are, not on their order or on
    how often one is listed. *)
Theorem scan_ignores_order (py_files py_files' : list Detectors.PyFile) :
  (∀ f, f ∈ py_files ↔ f ∈ py_files') →
  Forall scannable py_files →
  Detectors._scan_python_imports py_files
  = Detectors._scan_python_imports py_files'.
Proof.
  intros Hsame Hscan.
  assert (Hscan' : Forall scannable py_files').
  { rewrite Forall_forall in *. intros f Hf. apply Hscan, Hsame, Hf. }
  unfold Detectors._scan_python_imports.
  destruct (scan_files_total py_files ∅ Hscan) as (found & Hfound).
  destruct (scan_files_total py_files' ∅ Hscan') as (found' & Hfound').
  rewrite Hfound, Hfound'. f_equal. apply set_eq. intros pkg.
  rewrite (elem_of_scan_files _ _ _ pkg Hfound),
          (elem_of_scan_files _ _ _ pkg Hfound').
  unfold imported_in. split.
  - intros [H | [(f & t & l & Hf & H) Hs]]; [left; exact H |].
    right. split; [| exact Hs]. exists f, t, l.
    split; [apply Hsame, Hf | exact H].
  - intros [H | [(f & t & l & Hf & H) Hs]]; [left; exact H |].
    right. split; [| exact Hs]. exists f, t, l.
    split; [apply Hsame, Hf | exact H].
Qed.

Lemma scan_ignores_order_witness :
  Detectors._scan_python_imports [Samples.main_py; Samples.worker_py]
  = Detectors._scan_python_imports
      [Samples.worker_py; Samples.main_py; Samples.worker_py].
Proof.
  apply scan_ignores_order.
  - intros f. rewrite !elem_of_cons. tauto.
  - repeat (apply List.Forall_cons; [left; eexists; reflexivity |]).
    apply List.Forall_nil.
Defined.

Lemma skip_spaces_decompose (s : pystr) :
  ∃ indent,
    s = indent ++ Detectors.skip_spaces s
    ∧ Forall (λ c, Detectors.is_space c = true) indent.
Proof.
  induction s as [|c s IH]; cbn [Detectors.skip_spaces].
  - exists []. split; [reflexivity | constructor].
  - destruct (Detectors.is_space c) eqn:Hc.
    + destruct IH as (indent & Hs & Hind). exists (c :: indent). split.
      * cbn [app]. congruence.
      * constructor; assumption.
    + exists []. split; [reflexivity | constructor].
Qed.

Lemma skip_spaces_app (indent s : pystr) :
  Forall (λ c, Detectors.is_space c = true) indent →
  (∀ c, head s = Some c → Detectors.is_space c = false) →
  Detectors.skip_spaces (indent ++ s) = s.
Proof.
  intros Hind Hs. induction Hind as [|c indent Hc _ IH];
    cbn [app Detectors.skip_spaces].
  - destruct s as [|c s]; [reflexivity |].
    cbn [Detectors.skip_spaces]. rewrite (Hs c eq_refl). reflexivity.
  - rewrite Hc. exact IH.
Qed.

Lemma ident_tail_decompose (s : pystr) :
  ∃ rest,
    s = Detectors.ident_tail s ++ rest
    ∧ ∀ c, head rest = Some c → Detectors.ident_char c = false.
Proof.
  induction s as [|c s IH]; cbn [Detectors.ident_tail].
  - exists []. split; [reflexivity | discriminate].
  - destruct (Detectors.ident_char c) eqn:Hc.
    + destruct IH as (rest & Hs & Hrest). exists rest. split; [| exact Hrest].
      cbn [app]. congruence.
    + exists (c :: s). split; [reflexivity |]. intros d [= <-]. exact Hc.
Qed.

Lemma ident_tail_app (t rest : pystr) :
  Forall (λ d, Detectors.ident_char d = true) t →
  (∀ c, head rest = Some c → Detectors.ident_char c = false) →
  Detectors.ident_tail (t ++ rest) = t.
Proof.
  intros Ht Hrest. induction Ht as [|d t Hd _ IH];
    cbn [app Detectors.ident_tail].
  - destruct rest as [|c rest]; [reflexivity |].
    cbn [Detectors.ident_tail]. rewrite (Hrest c eq_refl). reflexivity.
  - rewrite Hd, IH. reflexivity.
Qed.

Lemma ident_start_not_space (c : N) :
  Detectors.ident_start c = true → Detectors.is_space c = false.
Proof.
  unfold Detectors.ident_start, Detectors.is_space, is_lower, is_upper.
  intros H. apply not_true_iff_false. intros Hs.
  repeat match goal with
         | H : _ || _ = true |- _ => apply orb_true_iff in H as [H | H]
         | H : _ && _ = true |- _ => apply andb_true_iff in H as [? H]
         | H : (_ <=? _) = true |- _ => apply N.leb_le in H
         | H : (_ =? _) = true |- _ => apply N.eqb_eq in H
         end; lia.
Qed.

Lemma after_keyword_spec (s t : pystr) :
  Detectors.after_keyword s = Some t
  ↔ s = py "import" ++ t ∨ s = py "from" ++ t.
Proof.
  unfold Detectors.after_keyword. split.
  - destruct (startswith (py "import") s) eqn:Hi.
    + intros [= <-]. left. apply startswith_drop in Hi. exact Hi.
    + destruct (startswith (py "from") s) eqn:Hf; [| discriminate].
      intros [= <-]. right. apply startswith_drop in Hf. exact Hf.
  - intros [-> | ->]; reflexivity.
Qed.

(** A line gives a token exactly when it reads: white space, import or
    from, white space, the token, and then nothing or a character that
    cannot go on a token; so [import a.b] and [import a, b] both give
    [a] alone. *)
Theorem import_match_lines (line pkg : pystr) :
  Detectors.import_match line = Some pkg ↔ import_line line pkg.
Proof.
  unfold import_line. split.
  - unfold Detectors.import_match.
    destruct (skip_spaces_decompose line) as (indent & Hline & Hindent).
    destruct (Detectors.after_keyword (Detectors.skip_spaces line))
      as [[|c rest] |] eqn:Hkw; try discriminate.
    apply after_keyword_spec in Hkw.
    destruct (Detectors.is_space c) eqn:Hc; [| discriminate].
    destruct (skip_spaces_decompose rest) as (gap & Hrest & Hgap).
    destruct (Detectors.skip_spaces rest) as [|d tail]; [discriminate |].
    destruct (Detectors.ident_start d) eqn:Hd; [| discriminate].
    intros [= <-].
    destruct (ident_tail_decompose tail) as (after & Htail & Hafter).
    assert (Hshape : ∀ keyword,
              Detectors.skip_spaces line = keyword ++ c :: rest →
              line = indent ++ keyword ++ (c :: gap)
                     ++ (d :: Detectors.ident_tail tail) ++ after).
    { intros keyword Hk. cbn [app].
      rewrite <- Htail, <- Hrest, <- Hk. exact Hline. }
    assert (Hkw' : ∃ keyword,
              (keyword = py "import" ∨ keyword = py "from")
              ∧ Detectors.skip_spaces line = keyword ++ c :: rest).
    { destruct Hkw as [H | H]; eexists; (split; [| exact H]); auto. }
    destruct Hkw' as (keyword & Hkeyword & Hk).
    exists indent, keyword, (c :: gap), after.
    split; [apply Hshape, Hk |]. split; [exact Hindent |].
    split; [exact Hkeyword |]. split; [discriminate |].
    split; [constructor; assumption |].
    split; [split; [exact Hd | apply ident_tail_chars] | exact Hafter].
  - intros (indent & keyword & gap & rest & -> & Hindent & Hkeyword
            & Hgap_ne & Hgap & Hid & Hrest).
    destruct pkg as [|d t]; [contradiction |]. destruct Hid as [Hd Ht].
    destruct gap as [|g gap]; [contradiction |].
    apply Forall_cons in Hgap as [Hg Hgap].
    unfold Detectors.import_match.
    rewrite skip_spaces_app; [| exact Hindent |].
    + replace (Detectors.after_keyword
                 (keyword ++ (g :: gap) ++ (d :: t) ++ rest))
        with (Some ((g :: gap) ++ (d :: t) ++ rest))
        by (destruct Hkeyword as [-> | ->]; reflexivity).
      cbn [app]. rewrite Hg.
      rewrite skip_spaces_app; [| exact Hgap |].
      * cbn [app]. rewrite Hd, ident_tail_app; auto.
      * intros c [= <-]. apply ident_start_not_space, Hd.
    + destruct Hkeyword as [-> | ->]; intros c [= <-]; reflexivity.
Qed.

Lemma import_match_lines_witness :
  import_line (py "  from flask import Flask") (py "flask").
Proof.
  apply (proj1 (import_match_lines _ _)). vm_compute. reflexivity.
Defined.

(** ** The clone step, effect by effect *)

Ltac closed_forall :=
  repeat (apply List.Forall_cons; [intros ?; discriminate |]);
  apply List.Forall_nil.

(** What [clone_repository] does to the machine: without git, nothing;
    the destination is removed exactly when git is there and the
    destination exists; the only command started is the clone, and only
    if the removal did not fail; every removal comes before the
    command. *)
Theorem clone_effects_in_order (h : Executor.Host) (url : pystr)
    (dest : option pystr) (tr : list Executor.event)
    (o : Executor.outcome pystr) :
  Executor.clone_repository h url dest = (tr, o) →
  let d := Executor.clone_dest h url dest in
  let cmd := Executor.clone_cmd url d in
  (Executor.which_git h = false →
     o = Executor.SysExit 1%Z
     ∧ ∀ e, e ∈ tr → ∃ msg, e = Executor.Log Executor.Error msg)
  ∧ (∀ p, Executor.Rmtree p ∈ tr
          ↔ p = d ∧ Executor.which_git h = true
            ∧ Executor.path_exists h d = true)
  ∧ (∀ c, Executor.Run c ∈ tr → c = cmd)
  ∧ (∀ e, Executor.which_git h = true → Executor.path_exists h d = true →
          Executor.rmtree_error h d = Some e →
          o = Executor.Uncaught e ∧ Executor.Run cmd ∉ tr)
  ∧ ∃ before after,
      tr = before ++ after
      ∧ Forall (λ e, ∀ c, e ≠ Executor.Run c) before
      ∧ Forall (λ e, ∀ p, e ≠ Executor.Rmtree p) after.
Proof.
  intros H d cmd. subst cmd d. rewrite clone_repository_cases in H.
  set (d := Executor.clone_dest h url dest) in *.
  set (cmd := Executor.clone_cmd url d) in *.
  set (warn := Executor.Log Executor.Warn _) in H.
  set (info := Executor.Log Executor.Info _) in H.
  set (done := Executor.Log Executor.Success _) in H.
  cbv zeta in H.
  destruct (Executor.which_git h) eqn:Hgit.
  - destruct (Executor.path_exists h d) eqn:Hex;
      [destruct (Executor.rmtree_error h d) as [e0 |] eqn:Hrm |];
      try destruct (Executor.returncode h cmd =? 0)%Z;
      injection H as <- <-;
      (split; [discriminate |]);
      (split; [intros p; rewrite ?elem_of_app, !elem_of_cons, elem_of_nil;
               subst warn info done; unfold clone_diagnostic;
               split;
               [intros Hin;
                repeat match goal with
                       | H : _ ∨ _ |- _ => destruct H
                       | H : False |- _ => destruct H
                       | H : Executor.Rmtree _ = _ |- _ =>
                           first [discriminate H | injection H as ->]
                       end; auto
               | intros (-> & _ & Hd); first [discriminate Hd | auto]] |]);
      (split; [intros c; rewrite ?elem_of_app, !elem_of_cons, elem_of_nil;
               subst warn info done; unfold clone_diagnostic; intros Hin;
               repeat match goal with
                      | H : _ ∨ _ |- _ => destruct H
                      | H : False |- _ => destruct H
                      | H : Executor.Run _ = _ |- _ =>
                          first [discriminate H | injection H as ->]
                      end; reflexivity |]);
      (split; [intros e _ Hd He;
               first [discriminate Hd | discriminate He
                     | injection He as ->; split; [reflexivity |];
                       rewrite !elem_of_cons, elem_of_nil;
                       subst warn; intros [Hin | [Hin | []]];
                       discriminate Hin] |]).
    + exists [warn; Executor.Rmtree d], []. split; [reflexivity |].
      split; [| constructor]. subst warn. closed_forall.
    + exists [warn; Executor.Rmtree d], []. split; [reflexivity |].
      split; [| constructor]. subst warn. closed_forall.
    + exists [warn; Executor.Rmtree d; info], [Executor.Run cmd; done].
      split; [reflexivity |]. subst warn info done. split; closed_forall.
    + exists [warn; Executor.Rmtree d; info],
             [Executor.Run cmd; clone_diagnostic].
      split; [reflexivity |]. subst warn info. unfold clone_diagnostic.
      split; closed_forall.
    + exists [info], [Executor.Run cmd; done].
      split; [reflexivity |]. subst info done. split; closed_forall.
    + exists [info], [Executor.Run cmd; clone_diagnostic].
      split; [reflexivity |]. subst info. unfold clone_diagnostic.
      split; closed_forall.
  - injection H as <- <-. split.
    + intros _. split; [reflexivity |]. intros e He.
      apply elem_of_cons in He as [-> | He]; [eexists; reflexivity |].
      inversion He.
    + split.
      { intros p. rewrite elem_of_cons, elem_of_nil. split.
        - intros [Hin | []]. discriminate Hin.
        - intros (_ & Hd & _). discriminate Hd. }
      split.
      { intros c. rewrite elem_of_cons, elem_of_nil.
        intros [Hin | []]. discriminate Hin. }
      split; [intros e Hd; discriminate Hd |].
      eexists [_], []. split; [reflexivity |]. split; [| constructor].
      closed_forall.
Qed.

Lemma clone_effects_in_order_witness :
  ∃ before after,
    fst (Executor.clone_repository Samples.host_offline Samples.url_blog
           None)
    = before ++ after
    ∧ Forall (λ e, ∀ c, e ≠ Executor.Run c) before
    ∧ Forall (λ e, ∀ p, e ≠ Executor.Rmtree p) after.
Proof.
  refine (proj2 (proj2 (proj2 (proj2
            (clone_effects_in_order Samples.host_offline Samples.url_blog
               None _ _ _))))).
  apply surjective_pairing.
Defined.

(** ** Console computations *)

Section Cli.
Import Utils.

Context {A B : Type}.

Lemma cli_bind_run (m : cli A) (k : A → cli B) (stdin : list pystr) :
  (m ≫= k) stdin =
    match m stdin with
    | (tr, Finished (a, rest)) => let '(tr', o) := k a rest in (tr ++ tr', o)
    | (tr, Exited c) => (tr, Exited c)
    | (tr, Escaped e) => (tr, Escaped e)
    end.
Proof. reflexivity. Qed.

Lemma bind_finished (m : cli A) (k : A → cli B) (stdin rest : list pystr)
    (tr : list event) (a : A) :
  m stdin = (tr, Finished (a, rest)) →
  (m ≫= k) stdin = (tr ++ fst (k a rest), snd (k a rest)).
Proof.
  intros H. rewrite cli_bind_run, H. destruct (k a rest); reflexivity.
Qed.

Lemma bind_exited (m : cli A) (k : A → cli B) (stdin : list pystr)
    (tr : list event) (c : Z) :
  m stdin = (tr, Exited c) → (m ≫= k) stdin = (tr, Exited c).
Proof. intros H. rewrite cli_bind_run, H. reflexivity. Qed.

Lemma bind_escaped (m : cli A) (k : A → cli B) (stdin : list pystr)
    (tr : list event) (e : pyexc) :
  m stdin = (tr, Escaped e) → (m ≫= k) stdin = (tr, Escaped e).
Proof. intros H. rewrite cli_bind_run, H. reflexivity. Qed.

Lemma never_finishes_bind_l (m : cli A) (k : A → cli B) :
  never_finishes m → never_finishes (m ≫= k).
Proof.
  intros Hm stdin. rewrite cli_bind_run. specialize (Hm stdin).
  destruct (m stdin) as [tr [[a rest] | c | e]]; cbn [snd] in *.
  - destruct Hm as [[? Hm] | [? Hm]]; discriminate Hm.
  - left. eexists. reflexivity.
  - right. eexists. reflexivity.
Qed.

Lemma never_finishes_bind_r (m : cli A) (k : A → cli B) :
  (∀ a, never_finishes (k a)) → never_finishes (m ≫= k).
Proof.
  intros Hk stdin. rewrite cli_bind_run.
  destruct (m stdin) as [tr [[a rest] | c | e]]; cbn [snd].
  - specialize (Hk a rest). destruct (k a rest) as [tr' o]. exact Hk.
  - left. eexists. reflexivity.
  - right. eexists. reflexivity.
Qed.

Lemma runs_only_bind (P : list pystr → Prop) (m : cli A) (k : A → cli B) :
  runs_only P m → (∀ a, runs_only P (k a)) → runs_only P (m ≫= k).
Proof.
  intros Hm Hk stdin cmd. rewrite cli_bind_run. specialize (Hm stdin cmd).
  destruct (m stdin) as [tr [[a rest] | c | e]]; cbn in *; try exact Hm.
  specialize (Hk a rest cmd). destruct (k a rest) as [tr' o]. cbn in *.
  rewrite elem_of_app. intros [H | H]; auto.
Qed.

Lemma runs_only_bind_stop (P : list pystr → Prop) (m : cli A)
    (k : A → cli B) :
  runs_only P m → never_finishes m → runs_only P (m ≫= k).
Proof.
  intros Hm Hnf stdin cmd. rewrite cli_bind_run.
  specialize (Hm stdin cmd). specialize (Hnf stdin).
  destruct (m stdin) as [tr [[a rest] | c | e]]; cbn in *; try exact Hm.
  destruct Hnf as [[? Hnf] | [? Hnf]]; discriminate Hnf.
Qed.

End Cli.

Section CliSteps.
Import Utils.

Context (P : list pystr → Prop).

Lemma runs_only_ret {A} (a : A) : runs_only P (ret a).
Proof. intros stdin cmd H. inversion H. Qed.

Lemma runs_only_sys_exit {A} (c : Z) : runs_only P (sys_exit (A := A) c).
Proof. intros stdin cmd H. inversion H. Qed.

Lemma runs_only_raise {A} (e : pyexc) : runs_only P (raise (A := A) e).
Proof. intros stdin cmd H. inversion H. Qed.

Lemma runs_only_emit (e : event) :
  (∀ cmd, e = Out (Executor.Run cmd) → P cmd) → runs_only P (emit e).
Proof.
  intros He stdin cmd H. cbn in H.
  apply elem_of_cons in H as [H | H]; [auto | inversion H].
Qed.

Lemma runs_only_input (q : pystr) : runs_only P (input q).
Proof.
  intros [|l rest] cmd H; cbn in H;
    (apply elem_of_cons in H as [H | H]; [discriminate | inversion H]).
Qed.

Lemma runs_only_prompt (q : pystr) : runs_only P (prompt q).
Proof.
  apply runs_only_bind; [apply runs_only_input |].
  intros a. apply runs_only_ret.
Qed.

Lemma runs_only_confirm (q : pystr) (d : bool) : runs_only P (confirm q d).
Proof.
  apply runs_only_bind; [apply runs_only_input |].
  intros a. destruct (lower (strip_ws a)); apply runs_only_ret.
Qed.

Lemma runs_only_lift {A} (p : Executor.proc A) :
  (∀ cmd, Executor.Run cmd ∈ fst p → P cmd) → runs_only P (lift p).
Proof.
  intros Hp stdin cmd H. cbn in H.
  apply list_elem_of_fmap in H as (e & He & Hin).
  injection He as <-. auto.
Qed.

Lemma runs_only_lift_result {A} (x : result A) : runs_only P (lift_result x).
Proof. destruct x; [apply runs_only_ret | apply runs_only_raise]. Qed.

End CliSteps.

(** ** The Docker half *)

Section DockerFacts.
Import Utils Docker.

Context (m : Machine).

Lemma check_docker_run (stdin : list pystr) :
  check_docker m stdin =
    if which_docker m then ([], Escaped ValueError)
    else ([Out (Executor.Log Executor.Error
                  (py "Docker is not installed or not found in PATH."
                   ++ [10] ++ py "  Install Docker Desktop: "
                   ++ py "https://docs.docker.com/get-docker/"))],
          Exited 1%Z).
Proof. unfold check_docker. destruct (which_docker m); reflexivity. Qed.

Lemma check_docker_never_finishes : never_finishes (check_docker m).
Proof.
  intros stdin. rewrite check_docker_run.
  destruct (which_docker m); [right | left]; eexists; reflexivity.
Qed.

Lemma check_docker_runs_nothing : runs_only (λ _, False) (check_docker m).
Proof.
  intros stdin cmd. rewrite check_docker_run.
  destruct (which_docker m); cbn; intros H.
  - inversion H.
  - apply elem_of_cons in H as [H | H]; [discriminate | inversion H].
Qed.

End DockerFacts.

(** [build_image] never returns and starts no command, [docker build]
    included: without a docker binary it logs the error and exits with
    status 1; with one, the daemon check asks [subprocess.run] for
    [capture_output] together with [stdout] and [stderr], and the
    [ValueError] this raises escapes. *)
Theorem build_image_never_builds (m : Docker.Machine)
    (repo_path dockerfile_path image_tag : pystr) (stdin : list pystr) :
  let run := Docker.build_image m repo_path dockerfile_path image_tag stdin in
  (∀ cmd, Utils.Out (Executor.Run cmd) ∉ fst run)
  ∧ (∀ x, snd run ≠ Utils.Finished x)
  ∧ (Docker.which_docker m = true → run = ([], Utils.Escaped Utils.ValueError))
  ∧ (Docker.which_docker m = false →
       snd run = Utils.Exited 1%Z
       ∧ ∃ msg, fst run
                = [Utils.Out (Executor.Log Executor.Error msg)]).
Proof.
  intros run. subst run. unfold Docker.build_image.
  rewrite cli_bind_run, check_docker_run.
  destruct (Docker.which_docker m); cbn.
  - split; [intros cmd H; inversion H |].
    split; [discriminate |]. split; [reflexivity | discriminate].
  - split.
    + intros cmd H. apply elem_of_cons in H as [H | H];
        [discriminate | inversion H].
    + split; [discriminate |]. split; [discriminate |].
      intros _. split; [reflexivity |]. eexists. reflexivity.
Qed.

Lemma build_image_never_builds_witness :
  Docker.build_image MoreSamples.machine_ready (py "/tmp/devreplicator_blo")
    (py "/tmp/devreplicator_blo/Dockerfile") (py "devreplicator-user-blo") []
  = ([], Utils.Escaped Utils.ValueError).
Proof.
  apply (build_image_never_builds MoreSamples.machine_ready). reflexivity.
Defined.

(** Every step that asks for captured output raises [ValueError] before
    it starts or logs anything: the search for a container of the same
    name, the status table, and with the first of them [run_container],
    whatever the tag, the name, the ports and the detach flag. *)
Theorem run_container_raises (m : Docker.Machine)
    (image_tag container_name : pystr) (port_mapping : option (Z * Z))
    (detach : bool) (stdin : list pystr) :
  Docker._remove_existing_container m container_name stdin
  = ([], Utils.Escaped Utils.ValueError)
  ∧ Docker._print_container_status m container_name stdin
    = ([], Utils.Escaped Utils.ValueError)
  ∧ Docker.run_container m image_tag container_name port_mapping detach
      stdin
    = ([], Utils.Escaped Utils.ValueError).
Proof.
  assert (Hcapture : ∀ cmd, Docker._run m cmd false true stdin
                            = ([], Utils.Escaped Utils.ValueError))
    by reflexivity.
  split; [| split].
  - unfold Docker._remove_existing_container.
    apply bind_escaped, Hcapture.
  - unfold Docker._print_container_status.
    apply bind_escaped, Hcapture.
  - unfold Docker.run_container.
    apply bind_escaped. unfold Docker._remove_existing_container.
    apply bind_escaped, Hcapture.
Qed.

(** ** The command-line run *)

Lemma build_image_never_finishes (m : Docker.Machine)
    (repo_path dockerfile_path image_tag : pystr) :
  never_finishes (Docker.build_image m repo_path dockerfile_path image_tag).
Proof. apply never_finishes_bind_l, check_docker_never_finishes. Qed.

Lemma build_image_runs_nothing (P : list pystr → Prop) (m : Docker.Machine)
    (repo_path dockerfile_path image_tag : pystr) :
  runs_only P (Docker.build_image m repo_path dockerfile_path image_tag).
Proof.
  apply runs_only_bind_stop; [| apply check_docker_never_finishes].
  intros stdin cmd H. destruct (check_docker_runs_nothing m stdin cmd H).
Qed.

Lemma clone_run_events (h : Executor.Host) (url : pystr)
    (dest : option pystr) (cmd : list pystr) :
  Executor.Run cmd ∈ fst (Executor.clone_repository h url dest) →
  cmd = Executor.clone_cmd url (Executor.clone_dest h url dest).
Proof.
  rewrite clone_repository_cases. cbv zeta.
  destruct (Executor.which_git h);
    [destruct (Executor.path_exists h _);
       [destruct (Executor.rmtree_error h _) |];
       try destruct (Executor.returncode h _ =? 0)%Z |];
    cbn [fst]; rewrite ?elem_of_app, !elem_of_cons, elem_of_nil;
    unfold clone_diagnostic; intros Hin;
    repeat match goal with
           | H : _ ∨ _ |- _ => destruct H
           | H : False |- _ => destruct H
           | H : Executor.Run _ = _ |- _ =>
               first [discriminate H | injection H as ->]
           end; reflexivity.
Qed.

(** The run never reaches its end: whatever the machine, the repository
    and the answers at the console, [_run_cli] ends with [sys.exit] or
    with an exception, because [build_image] does. *)
Theorem run_cli_never_completes (w : Orchestrator.World) :
  never_finishes (Orchestrator._run_cli w).
Proof.
  unfold Orchestrator._run_cli. cbv zeta.
  repeat lazymatch goal with
         | |- never_finishes (Docker.build_image _ _ _ _ ≫= _) =>
             fail
         | |- never_finishes (_ ≫= _) =>
             apply never_finishes_bind_r; intros ?
         end.
  apply never_finishes_bind_l, build_image_never_finishes.
Qed.

Lemma run_cli_never_completes_witness :
  (∃ code, snd (Orchestrator._run_cli MoreSamples.world_ready
                  [py "https://github.com/user/blog"]) = Utils.Exited code)
  ∨ (∃ e, snd (Orchestrator._run_cli MoreSamples.world_ready
                 [py "https://github.com/user/blog"]) = Utils.Escaped e).
Proof.
  exact (run_cli_never_completes MoreSamples.world_ready
           [py "https://github.com/user/blog"]).
Defined.

(** If the Dockerfile generator starts no command, the only command a
    run ever starts is the git clone: no docker command is started. *)
Theorem run_cli_starts_only_clone (w : Orchestrator.World) :
  (∀ repo_path info,
     runs_only (λ _, False)
       (Orchestrator.generate_dockerfile w repo_path info)) →
  runs_only (λ cmd, ∃ url dest, cmd = Executor.clone_cmd url dest)
    (Orchestrator._run_cli w).
Proof.
  intros Hgen. unfold Orchestrator._run_cli. cbv zeta.
  set (P := λ cmd : list pystr,
              ∃ url dest, cmd = Executor.clone_cmd url dest).
  assert (Hlog : ∀ e, (∀ cmd, e ≠ Utils.Out (Executor.Run cmd)) →
                      runs_only P (Utils.emit e)).
  { intros e He. apply runs_only_emit. intros cmd ->.
    destruct (He cmd eq_refl). }
  assert (Hunknown : ∀ info, runs_only P (Orchestrator.resolve_unknown info)).
  { intros info. unfold Orchestrator.resolve_unknown.
    destruct (Detectors.pystr_eqb _ _); [| apply runs_only_ret].
    apply runs_only_bind; [apply Hlog; discriminate | intros _].
    apply runs_only_bind; [apply runs_only_prompt | intros base].
    apply runs_only_bind; [apply runs_only_prompt | intros start].
    apply runs_only_ret. }
  assert (Hentry : ∀ info, runs_only P (Orchestrator.resolve_entry info)).
  { intros info. unfold Orchestrator.resolve_entry.
    destruct (_ && _); [| apply runs_only_ret].
    apply runs_only_bind; [apply runs_only_prompt | intros answer].
    destruct (Utils.strip_ws answer); apply runs_only_ret. }
  repeat lazymatch goal with
         | |- runs_only _ (Docker.build_image _ _ _ _ ≫= _) => fail
         | |- runs_only _ (_ ≫= _) => apply runs_only_bind; [| intros ?]
         end;
    try (apply Hlog; discriminate);
    try apply runs_only_prompt;
    try apply runs_only_lift_result;
    try apply Hunknown; try apply Hentry.
  - lazymatch goal with
    | |- runs_only _ (match ?url with [] => _ | _ :: _ => _ end) =>
        destruct url; [| apply runs_only_ret]
    end.
    apply runs_only_bind; [apply Hlog; discriminate | intros _].
    apply runs_only_sys_exit.
  - destruct (Orchestrator._valid_github_url _);
      [apply runs_only_ret | apply Hlog; discriminate].
  - apply runs_only_lift. intros cmd Hcmd.
    apply clone_run_events in Hcmd. eexists _, _. exact Hcmd.
  - intros stdin cmd Hin. destruct (Hgen _ _ stdin cmd Hin).
  - apply runs_only_bind_stop;
      [apply build_image_runs_nothing | apply build_image_never_finishes].
Qed.

Lemma run_cli_starts_only_clone_witness :
  ∃ url dest,
    [py "git"; py "clone"; py "--depth=1"; py "https://github.com/user/blog";
     py "/tmp/devreplicator_blo"]
    = Executor.clone_cmd url dest.
Proof.
  refine (run_cli_starts_only_clone MoreSamples.world_ready _
            [py "https://github.com/user/blog"] _ _).
  - intros repo_path info stdin cmd H. inversion H.
  - vm_compute. do 5 apply list_elem_of_further. apply list_elem_of_here.
Defined.

(** The first steps of a run, up to the clone. *)
Lemma run_cli_start (w : Orchestrator.World) (line : pystr)
    (rest : list pystr) :
  let url := Utils.strip_ws line in
  let opening :=
    [Utils.Heading (py "DevReplicator " ++ [8212] ++ py " CLI Mode");
     Utils.Input (py "GitHub repository URL:")] in
  let warning :=
    Utils.Out (Executor.Log Executor.Warn
                 (py "URL does not look like a GitHub repository. "
                  ++ py "Proceeding anyway " ++ [8230])) in
  let step :=
    [Utils.Heading (py "Step 1 / 5 " ++ [8212] ++ py " Cloning Repository");
     Utils.Step 1 5 (py "Cloning: " ++ url)] in
  let clone :=
    Executor.clone_repository (Docker.host (Orchestrator.machine w)) url
      None in
  match url with
  | [] =>
      Orchestrator._run_cli w (line :: rest)
      = (opening ++ [Utils.Out (Executor.Log Executor.Error
                                  (py "No URL provided. Exiting."))],
         Utils.Exited 1%Z)
  | _ :: _ =>
      ∃ more,
        fst (Orchestrator._run_cli w (line :: rest))
        = opening
          ++ (if Orchestrator._valid_github_url url then [] else [warning])
          ++ step ++ (Utils.Out <$> fst clone) ++ more
        ∧ (∀ c, snd clone = Executor.SysExit c →
                more = []
                ∧ snd (Orchestrator._run_cli w (line :: rest))
                  = Utils.Exited c)
        ∧ (∀ e, snd clone = Executor.Uncaught e →
                more = []
                ∧ snd (Orchestrator._run_cli w (line :: rest))
                  = Utils.Escaped (Utils.Builtin e))
  end.
Proof.
  cbv zeta. unfold Orchestrator._run_cli.
  rewrite (bind_finished _ _ _ (line :: rest) [_] tt) by reflexivity.
  rewrite (bind_finished _ _ _ rest [_] (Utils.strip_ws line))
    by reflexivity.
  destruct (Utils.strip_ws line) as [|c url] eqn:Hurl.
  - rewrite (bind_exited _ _ _ [_] 1%Z) by reflexivity. reflexivity.
  - rewrite (bind_finished _ _ _ rest [] tt) by reflexivity.
    remember (Executor.clone_repository _ (c :: url) None) as clone
      eqn:Hclone.
    set (valid := Orchestrator._valid_github_url (c :: url)).
    set (warning := Utils.Out (Executor.Log Executor.Warn _)).
    rewrite (bind_finished _ _ _ rest (if valid then [] else [warning]) tt)
      by (destruct valid; reflexivity).
    rewrite (bind_finished _ _ _ rest [_] tt) by reflexivity.
    rewrite (bind_finished _ _ _ rest [_] tt) by reflexivity.
    cbn [fst snd].
    clear Hclone. destruct clone as [tr [path | x | e]].
    + rewrite (bind_finished _ _ _ rest (Utils.Out <$> tr) path)
        by reflexivity.
      eexists. split; [reflexivity |]. split; discriminate.
    + rewrite (bind_exited _ _ _ (Utils.Out <$> tr) x) by reflexivity.
      exists []. split; [rewrite !app_nil_r; reflexivity |].
      split; [intros ? [= <-]; split; reflexivity | discriminate].
    + rewrite (bind_escaped _ _ _ (Utils.Out <$> tr) (Utils.Builtin e))
        by reflexivity.
      exists []. split; [rewrite !app_nil_r; reflexivity |].
      split; [discriminate | intros ? [= <-]; split; reflexivity].
Qed.

(** Without a URL the run ends at once with exit status 1: a blank
    answer to the first question is followed by the error message and
    nothing else, and no clone is attempted. *)
Theorem run_cli_without_url (w : Orchestrator.World) (line : pystr)
    (rest : list pystr) :
  Utils.strip_ws line = [] →
  Orchestrator._run_cli w (line :: rest)
  = ([Utils.Heading (py "DevReplicator " ++ [8212] ++ py " CLI Mode");
      Utils.Input (py "GitHub repository URL:");
      Utils.Out (Executor.Log Executor.Error
                   (py "No URL provided. Exiting."))],
     Utils.Exited 1%Z).
Proof.
  intros Hblank. pose proof (run_cli_start w line rest) as H.
  cbv zeta in H. rewrite Hblank in H. exact H.
Qed.

Lemma run_cli_without_url_witness :
  snd (Orchestrator._run_cli MoreSamples.world_ready [py "   "])
  = Utils.Exited 1%Z.
Proof.
  rewrite (run_cli_without_url MoreSamples.world_ready (py "   ") []).
  - reflexivity.
  - vm_compute. reflexivity.
Defined.

(** The URL check only warns: with any URL that is not blank the clone
    is attempted with that URL, after a warning if the URL does not look
    like a GitHub one; and a clone that ends the process ends the run
    with the same status, right after the clone's last event. *)
Theorem run_cli_clones_any_url (w : Orchestrator.World) (line : pystr)
    (rest : list pystr) :
  let url := Utils.strip_ws line in
  let clone :=
    Executor.clone_repository (Docker.host (Orchestrator.machine w)) url
      None in
  url ≠ [] →
  ∃ before more,
    fst (Orchestrator._run_cli w (line :: rest))
    = before ++ (Utils.Out <$> fst clone) ++ more
    ∧ (∀ cmd, Utils.Out (Executor.Run cmd) ∉ before)
    ∧ (Orchestrator._valid_github_url url = false →
         ∃ msg, Utils.Out (Executor.Log Executor.Warn msg) ∈ before)
    ∧ (∀ c, snd clone = Executor.SysExit c →
         more = []
         ∧ snd (Orchestrator._run_cli w (line :: rest)) = Utils.Exited c).
Proof.
  intros url clone Hurl. pose proof (run_cli_start w line rest) as H.
  cbv zeta in H. fold url in H. fold clone in H.
  destruct url as [|c u] eqn:E; [contradiction |].
  destruct H as (more & Htr & Hexit & _).
  eexists _, more. split; [rewrite Htr, !app_assoc; reflexivity |].
  split; [| split; [| exact Hexit]].
  - intros cmd. rewrite !elem_of_app, !elem_of_cons, !elem_of_nil.
    destruct (Orchestrator._valid_github_url (c :: u));
      rewrite ?elem_of_cons, ?elem_of_nil;
      intros Hin;
      repeat match goal with
             | H : _ ∨ _ |- _ => destruct H
             | H : False |- _ => destruct H
             | H : Utils.Out _ = _ |- _ => discriminate H
             end.
  - intros ->. eexists. apply elem_of_app. left.
    apply elem_of_app. right. apply list_elem_of_here.
Qed.

Lemma run_cli_clones_any_url_witness :
  ∃ before more,
    fst (Orchestrator._run_cli MoreSamples.world_offline
           [py "example.org/some/repo"])
    = before
      ++ (Utils.Out <$> fst (Executor.clone_repository Samples.host_offline
                               (py "example.org/some/repo") None))
      ++ more
    ∧ (∀ cmd, Utils.Out (Executor.Run cmd) ∉ before)
    ∧ (Orchestrator._valid_github_url (py "example.org/some/repo") = false →
         ∃ msg, Utils.Out (Executor.Log Executor.Warn msg) ∈ before)
    ∧ (∀ c, snd (Executor.clone_repository Samples.host_offline
                   (py "example.org/some/repo") None)
            = Executor.SysExit c →
         more = []
         ∧ snd (Orchestrator._run_cli MoreSamples.world_offline
                  [py "example.org/some/repo"]) = Utils.Exited c).
Proof.
  apply (run_cli_clones_any_url MoreSamples.world_offline
           (py "example.org/some/repo") []).
  vm_compute. discriminate.
Defined.

(** ** What reaches the Dockerfile generator *)

Lemma str_or_nonempty (s default : pystr) :
  default ≠ [] → Orchestrator.str_or s default ≠ [].
Proof. intros H. destruct s; [exact H | discriminate]. Qed.

Lemma prompt_run (q line : pystr) (rest : list pystr) :
  Utils.prompt q (line :: rest)
  = ([Utils.Input q], Utils.Finished (Utils.strip_ws line, rest)).
Proof. reflexivity. Qed.

Lemma prompt_eof (q : pystr) :
  Utils.prompt q [] = ([Utils.Input q], Utils.Escaped Utils.EOFError).
Proof. reflexivity. Qed.

(** A known stack passes the first question block untouched; an unknown
    one leaves it with a base image and a start command, neither empty. *)
Lemma resolve_unknown_finished (info info' : Detectors.ProjectInfo)
    (stdin rest : list pystr) (tr : list Utils.event) :
  Orchestrator.resolve_unknown info stdin = (tr, Utils.Finished (info', rest)) →
  Detectors.project_type info' = Detectors.project_type info
  ∧ Detectors.dep_file info' = Detectors.dep_file info
  ∧ Detectors.entry_point info' = Detectors.entry_point info
  ∧ (info' = info ∧ Detectors.project_type info ≠ py "unknown"
     ∨ Detectors.project_type info = py "unknown"
       ∧ (∃ b, Detectors.base_image info' = Some b ∧ b ≠ [])
       ∧ (∃ s, Detectors.start_command info' = Some s ∧ s ≠ [])).
Proof.
  unfold Orchestrator.resolve_unknown, Detectors.pystr_eqb.
  destruct (bool_decide_reflect (Detectors.project_type info = py "unknown"))
    as [Hun | Hkn].
  - rewrite (bind_finished _ _ _ stdin [_] tt) by reflexivity.
    destruct stdin as [|base stdin];
      [rewrite (bind_escaped _ _ _ _ _ (prompt_eof _)); discriminate |].
    rewrite (bind_finished _ _ _ _ _ _ (prompt_run _ _ _)).
    destruct stdin as [|start stdin];
      [rewrite (bind_escaped _ _ _ _ _ (prompt_eof _)); discriminate |].
    rewrite (bind_finished _ _ _ _ _ _ (prompt_run _ _ _)).
    cbn [fst snd Utils.ret]. intros [= _ <- _].
    cbn [Detectors.project_type Detectors.dep_file Detectors.entry_point
         Detectors.base_image Detectors.start_command].
    repeat split. right. split; [exact Hun |].
    split; eexists; (split; [reflexivity |]);
      apply str_or_nonempty; discriminate.
  - intros [= _ <- _]. repeat split. left. split; [reflexivity | exact Hkn].
Qed.

(** The second block keeps the variant, the manifest and the base image;
    it changes the entry point only for python and poetry, to a name that
    is not blank, with the matching start command. *)
Lemma resolve_entry_finished (info info' : Detectors.ProjectInfo)
    (stdin rest : list pystr) (tr : list Utils.event) :
  Orchestrator.resolve_entry info stdin = (tr, Utils.Finished (info', rest)) →
  Detectors.project_type info' = Detectors.project_type info
  ∧ Detectors.dep_file info' = Detectors.dep_file info
  ∧ Detectors.base_image info' = Detectors.base_image info
  ∧ (info' = info
     ∨ Orchestrator.is_python_like info = true
       ∧ ∃ e, e ≠ []
              ∧ Detectors.entry_point info' = Some e
              ∧ Detectors.start_command info' = Some (py "python " ++ e)).
Proof.
  unfold Orchestrator.resolve_entry.
  destruct (_ && Orchestrator.is_python_like info) eqn:Hask.
  - apply andb_true_iff in Hask as [_ Hpy].
    destruct stdin as [|answer stdin];
      [rewrite (bind_escaped _ _ _ _ _ (prompt_eof _)); discriminate |].
    rewrite (bind_finished _ _ _ _ _ _ (prompt_run _ _ _)).
    destruct (Utils.strip_ws (Utils.strip_ws answer)) as [|c custom] eqn:Hc;
      cbn [fst snd Utils.ret]; intros [= _ <- _].
    + repeat split. left. reflexivity.
    + cbn [Detectors.project_type Detectors.dep_file Detectors.base_image
           Detectors.entry_point Detectors.start_command].
      repeat split. right. split; [exact Hpy |].
      exists (c :: custom). repeat split. discriminate.
  - intros [= _ <- _]. repeat split. left. reflexivity.
Qed.

(** After detection and the two question blocks, what is handed to the
    Dockerfile generator has the detected variant and manifest and a base
    image that is not empty; it lacks a start command only for a python
    or poetry project without an entry point. *)
Theorem generator_gets_base_image (r : Detectors.Repo)
    (info info' : Detectors.ProjectInfo) (stdin rest : list pystr)
    (tr : list Utils.event) :
  Detectors.detect_project r = Ok info →
  (Orchestrator.resolve_unknown info ≫= Orchestrator.resolve_entry) stdin
  = (tr, Utils.Finished (info', rest)) →
  (∃ b, Detectors.base_image info' = Some b ∧ b ≠ [])
  ∧ Detectors.project_type info' = Detectors.project_type info
  ∧ Detectors.dep_file info' = Detectors.dep_file info
  ∧ (Detectors.start_command info' = None →
       Orchestrator.is_python_like info' = true
       ∧ Detectors.entry_point info' = None).
Proof.
  intros Hdetect Hrun.
  assert (Hinfo :
    (Detectors.project_type info = py "unknown"
     ∨ ∃ b, Detectors.base_image info = Some b ∧ b ≠ [])
    ∧ (Detectors.start_command info = None →
         Detectors.project_type info = py "unknown"
         ∨ Orchestrator.is_python_like info = true
           ∧ Detectors.entry_point info = None)).
  { rewrite detect_project_cases in Hdetect.
    pose proof (python_start_entry r) as Hstart.
    destruct (Detectors.exists_at r (py "requirements.txt"));
      [| destruct (Detectors.exists_at r (py "pyproject.toml"));
         [| destruct (Detectors.exists_at r (py "package.json"));
            [destruct (Detectors._find_node_entry r); [| discriminate]
            | destruct (Detectors.rglob_py r);
              [| destruct (Detectors._scan_python_imports _);
                 [| discriminate]]]]];
      injection Hdetect as <-;
      cbn [Detectors.project_type Detectors.base_image
           Detectors.start_command Detectors.entry_point pip_result
           poetry_result node_result source_result unknown_result];
      (split; [first [left; reflexivity
                     | right; eexists; split; [reflexivity | discriminate]]
              | intros Hnone;
                first [discriminate Hnone | left; reflexivity
                      | right; split; [reflexivity |];
                        rewrite Hstart in Hnone;
                        destruct (Detectors._find_python_entry r);
                        [discriminate Hnone | reflexivity]]]). }
  destruct Hinfo as [Hbase Hstart].
  rewrite cli_bind_run in Hrun.
  destruct (Orchestrator.resolve_unknown info stdin)
    as [tr1 [[info1 rest1] | c | e]] eqn:H1; try discriminate.
  destruct (Orchestrator.resolve_entry info1 rest1)
    as [tr2 [[info2 rest2] | c | e]] eqn:H2; try discriminate.
  injection Hrun as _ <- _.
  apply resolve_unknown_finished in H1
    as (Ht1 & Hd1 & He1 & [[-> Hknown] | (Hun & Hb1 & Hs1)]);
    apply resolve_entry_finished in H2
      as (Ht2 & Hd2 & Hb2 & [-> | (Hpy & e & Hne & Hent & Hcmd)]).
  - split; [destruct Hbase as [? | ?]; [contradiction | assumption] |].
    split; [reflexivity |]. split; [reflexivity |]. intros Hnone.
    destruct (Hstart Hnone) as [? | ?]; [contradiction | assumption].
  - split; [rewrite Hb2; destruct Hbase as [? | ?];
            [contradiction | assumption] |].
    split; [exact Ht2 |]. split; [exact Hd2 |].
    rewrite Hcmd. discriminate.
  - split; [exact Hb1 |]. split; [exact Ht1 |]. split; [exact Hd1 |].
    destruct Hs1 as (s & -> & _). discriminate.
  - split; [rewrite Hb2; exact Hb1 |].
    split; [congruence |]. split; [congruence |].
    rewrite Hcmd. discriminate.
Qed.

Lemma generator_gets_base_image_witness :
  ∃ b, Detectors.base_image
         {| Detectors.project_type := py "unknown";
            Detectors.entry_point := None;
            Detectors.dep_file := None;
            Detectors.base_image := Some (py "ubuntu:22.04");
            Detectors.start_command := Some (py "sh");
            Detectors.scanned_imports := [] |} = Some b
       ∧ b ≠ [].
Proof.
  refine (proj1 (generator_gets_base_image Samples.repo_empty unknown_result
                   _ [py ""; py " sh "] [] _ _ _)).
  - reflexivity.
  - vm_compute. reflexivity.
Defined.
